(** * CRUSH Clothing storefront: catalog bootstrap, checkout initiation,
      price formatting and the Shopify configuration endpoint.

    The development embeds [client/src/App.tsx] and [server/routes.ts].
    JavaScript built-ins that the sources call ([parseFloat], [String],
    [Number.prototype.toFixed], [String.prototype.replace], [||]) are
    modelled after ECMA-262 in module [JS]; numbers are IEEE-754 binary64
    values given by sign, integer significand and binary exponent, so that
    every computation is exact integer arithmetic. *)

From Stdlib Require Import ZArith Lia Bool Ascii String.
From stdpp Require Import base list gmap.

(** JavaScript strings are sequences of UTF-16 code units. *)
Definition jsstring := list N.

Definition str (s : string) : jsstring :=
  map N_of_ascii (list_ascii_of_string s).

(** Thrown values. Rejections of the platform's promises carry a reason. *)
Inductive exn :=
| TypeError (msg : jsstring)
| RangeError (msg : jsstring)
| Rejection (reason : jsstring).

(** Completion of an expression or statement list: a value, a [return]
    out of the enclosing function, or a thrown exception. *)
Inductive completion (A : Type) :=
| Normal (a : A)
| Return
| Throw (e : exn).
Arguments Normal {A} a.
Arguments Return {A}.
Arguments Throw {A} e.

Module JS.
Local Open Scope Z_scope.

(** ** Numbers *)

(** A binary64 value. [Finite neg m e] denotes [(-1)^neg * m * 2^e]; the
    values produced by [number_of_rational] are canonical:
    [2^52 <= m < 2^53] and [-1074 <= e <= 971], or [m < 2^52] and
    [e = -1074] (subnormal). *)
Inductive number :=
| NaN
| Infinity (neg : bool)
| Zero (neg : bool)
| Finite (neg : bool) (m : positive) (e : Z).

Definition number_eqb (x y : number) : bool :=
  match x, y with
  | NaN, NaN => true
  | Infinity a, Infinity b => Bool.eqb a b
  | Zero a, Zero b => Bool.eqb a b
  | Finite a m e, Finite b m' e' => Bool.eqb a b && Pos.eqb m m' && (e =? e')
  | _, _ => false
  end.

(** [(num / den) / 2^e] as a fraction. *)
Definition scale2 (num den e : Z) : Z * Z :=
  if 0 <=? e then (num, den * 2 ^ e) else (num * 2 ^ (- e), den).

(** [(num / den) / 10^p] as a fraction. *)
Definition scale10 (num den p : Z) : Z * Z :=
  if 0 <=? p then (num, den * 10 ^ p) else (num * 10 ^ (- p), den).

Definition round_half_even (a b : Z) : Z :=
  let q := a / b in
  match 2 * (a mod b) ?= b with
  | Lt => q
  | Gt => q + 1
  | Eq => if Z.even q then q else q + 1
  end.

(** The exponent [e] with [2^52 <= (num/den) / 2^e < 2^53]. *)
Definition binade (num den : Z) : Z :=
  let e1 := Z.log2 num - Z.log2 den - 52 in
  let '(a, b) := scale2 num den e1 in
  if a / b <? 2 ^ 52 then e1 - 1 else e1.

(** "The Number value for" the non-negative rational [num / den]
    (ECMA-262 6.1.6.1): round to nearest, ties to even, with overflow to
    infinity and gradual underflow. *)
Definition number_of_rational (neg : bool) (num den : Z) : number :=
  if num <=? 0 then Zero neg else
  let e := Z.max (binade num den) (-1074) in
  let '(a, b) := scale2 num den e in
  let m := round_half_even a b in
  if m =? 0 then Zero neg
  else if m =? 2 ^ 53 then
    if 971 <=? e then Infinity neg else Finite neg (Z.to_pos (2 ^ 52)) (e + 1)
  else if 971 <? e then Infinity neg
  else Finite neg (Z.to_pos m) e.

(** The exact value [m * 2^e] as a fraction. *)
Definition fraction_of (m : positive) (e : Z) : Z * Z :=
  if 0 <=? e then (Z.pos m * 2 ^ e, 1) else (Z.pos m, 2 ^ (- e)).

Definition pos_zero : number := Zero false.

(** ** Decimal digits *)

Definition digit_char (d : Z) : N := Z.to_N (48 + d).

Fixpoint digits_go (fuel : nat) (n : Z) (acc : jsstring) : jsstring :=
  match fuel with
  | O => acc
  | S f =>
    let acc' := digit_char (n mod 10) :: acc in
    if n <? 10 then acc' else digits_go f (n / 10) acc'
  end.

(** Decimal representation of a non-negative integer ("0" for 0). *)
Definition decimal_digits (n : Z) : jsstring :=
  digits_go (S (Z.to_nat (Z.log2 n))) n [].

Definition zeros (n : Z) : jsstring := repeat 48%N (Z.to_nat n).

Definition len (s : jsstring) : Z := Z.of_nat (length s).

(** ** Number::toString (ECMA-262 6.1.6.1.20, radix 10) *)

(** Least [n >= n0] with [num / den < 10^n]. *)
Fixpoint exp10_up (fuel : nat) (num den n0 : Z) : Z :=
  match fuel with
  | O => n0
  | S f =>
    let '(a, b) := scale10 num den n0 in
    if a <? b then n0 else exp10_up f num den (n0 + 1)
  end.

(** The [n] with [10^(n-1) <= num / den < 10^n]; the search starts from
    an under-estimate obtained from the binary logarithms. *)
Definition decimal_exponent (num den : Z) : Z :=
  let lo := (Z.log2 num - Z.log2 den - 1) * 30103 / 100000 - 1 in
  exp10_up 8 num den lo.

(** Does the decimal [s * 10^p] denote the number [x]? *)
Definition denotes (x : number) (s p : Z) : bool :=
  let '(a, b) := scale10 s 1 (- p) in
  number_eqb (number_of_rational false a b) x.

(** The candidates with [k] digits for a positive [x = num / den] whose
    decimal exponent is [n]: the two [k]-digit decimals around [x]. The
    closer one is preferred, the even one on a tie. *)
Definition digits_at (x : number) (num den n k : Z) : option (Z * Z * Z) :=
  let p := n - k in
  let '(a, b) := scale10 num den p in
  let s0 := a / b in
  let lo := (n, k, s0) in
  let hi := if s0 + 1 <? 10 ^ k then (n, k, s0 + 1) else (n + 1, k, 10 ^ (k - 1)) in
  match denotes x s0 p, denotes x (s0 + 1) p with
  | true, true =>
    match 2 * (a mod b) ?= b with
    | Lt => Some lo
    | Gt => Some hi
    | Eq => Some (if Z.even s0 then lo else hi)
    end
  | true, false => Some lo
  | false, true => Some hi
  | false, false => None
  end.

(** Step 5: integers [n], [k], [s] with [k >= 1], [10^(k-1) <= s < 10^k],
    [s * 10^(n-k)] denoting [x], and [k] as small as possible. Seventeen
    digits always identify a binary64 value. *)
Fixpoint shortest_go (fuel : nat) (x : number) (num den n k : Z) : Z * Z * Z :=
  match fuel with
  | O => (n, k, fst (scale10 num den (n - k)) / snd (scale10 num den (n - k)))
  | S f =>
    match digits_at x num den n k with
    | Some r => r
    | None => shortest_go f x num den n (k + 1)
    end
  end.

Definition shortest (m : positive) (e : Z) : Z * Z * Z :=
  let '(num, den) := fraction_of m e in
  shortest_go 17 (Finite false m e) num den (decimal_exponent num den) 1.

Definition exponent_suffix (n : Z) : jsstring :=
  str "e" ++ (if 0 <? n - 1 then str "+" else str "-") ++ decimal_digits (Z.abs (n - 1)).

Definition Number_toString_pos (m : positive) (e : Z) : jsstring :=
  let '(n, k, s) := shortest m e in
  let ds := decimal_digits s in
  if (k <=? n) && (n <=? 21) then ds ++ zeros (n - k)
  else if (0 <? n) && (n <=? 21) then
    take (Z.to_nat n) ds ++ str "." ++ drop (Z.to_nat n) ds
  else if (-6 <? n) && (n <=? 0) then str "0." ++ zeros (- n) ++ ds
  else if k =? 1 then ds ++ exponent_suffix n
  else take 1 ds ++ str "." ++ drop 1 ds ++ exponent_suffix n.

Definition Number_toString (x : number) : jsstring :=
  match x with
  | NaN => str "NaN"
  | Zero _ => str "0"
  | Infinity neg => (if neg then str "-" else []) ++ str "Infinity"
  | Finite neg m e => (if neg then str "-" else []) ++ Number_toString_pos m e
  end.

(** ** Number.prototype.toFixed (ECMA-262 21.1.3.3) *)

(** Steps 10.b-10.d: the digits of [n] with a decimal point before the
    last [f] of them, left-padded with zeros to at least [f + 1] digits. *)
Definition fixed_digits (n f : Z) : jsstring :=
  let m := decimal_digits n in
  if f =? 0 then m else
  let m := if len m <=? f then zeros (f + 1 - len m) ++ m else m in
  let a := Z.to_nat (len m - f) in
  take a m ++ str "." ++ drop a m.

(** The integer [n] for which [n / 10^f - num / den] is closest to zero,
    the larger one if there are two. *)
Definition nearest_scaled (num den f : Z) : Z :=
  (2 * num * 10 ^ f + den) / (2 * den).

Definition toFixed (x : number) (fractionDigits : Z) : completion jsstring :=
  let f := fractionDigits in
  if (f <? 0) || (100 <? f) then
    Throw (RangeError (str "toFixed() digits argument must be between 0 and 100"))
  else
    match x with
    | NaN | Infinity _ => Normal (Number_toString x)
    | Zero _ => Normal (fixed_digits 0 f)
    | Finite neg m e =>
      let s := if neg then str "-" else [] in
      let '(num, den) := fraction_of m e in
      if 10 ^ 21 * den <=? num then Normal (s ++ Number_toString_pos m e)
      else Normal (s ++ fixed_digits (nearest_scaled num den f) f)
    end.

(** ** parseFloat (ECMA-262 19.2.4) *)

Definition mem (c : N) (l : list N) : bool := existsb (N.eqb c) l.

(** WhiteSpace and LineTerminator code units (ECMA-262 12.2, 12.3). *)
Definition is_white_space (c : N) : bool :=
  mem c [9; 10; 11; 12; 13; 32; 160; 5760; 8232; 8233; 8239; 8287; 12288; 65279]%N
  || ((8192 <=? c) && (c <=? 8202))%N.

Fixpoint trim_start (s : jsstring) : jsstring :=
  match s with
  | c :: s' => if is_white_space c then trim_start s' else s
  | [] => []
  end.

Definition is_digit (c : N) : bool := ((48 <=? c) && (c <=? 57))%N.

(** The longest run of decimal digits at the front, and the rest. *)
Fixpoint span_digits (s : jsstring) : list Z * jsstring :=
  match s with
  | c :: s' =>
    if is_digit c then
      let '(ds, r) := span_digits s' in (Z.of_N c - 48 :: ds, r)
    else ([], s)
  | [] => ([], [])
  end.

Definition digits_value (ds : list Z) : Z :=
  fold_left (fun acc d => 10 * acc + d) ds 0.

Fixpoint is_prefix (p s : jsstring) : bool :=
  match p, s with
  | [], _ => true
  | a :: p', b :: s' => N.eqb a b && is_prefix p' s'
  | _ :: _, [] => false
  end.

(** An optional sign: is it a minus, and the rest. *)
Definition split_sign (s : jsstring) : bool * jsstring :=
  match s with
  | c :: r => if N.eqb c 43 then (false, r) else if N.eqb c 45 then (true, r) else (false, s)
  | [] => (false, [])
  end.

(** The value of an ExponentPart at the front of [s], 0 when there is
    none (an "e" not followed by digits is not part of the literal). *)
Definition exponent_part (s : jsstring) : Z :=
  match s with
  | c :: r =>
    if N.eqb c 101 || N.eqb c 69 then
      let '(neg, r') := split_sign r in
      let '(ds, _) := span_digits r' in
      match ds with
      | [] => 0
      | _ => if neg then - digits_value ds else digits_value ds
      end
    else 0
  | [] => 0
  end.

(** The Number value of the decimal [d * 10^p]. *)
Definition number_of_decimal (neg : bool) (d p : Z) : number :=
  let '(a, b) := scale10 d 1 (- p) in number_of_rational neg a b.

(** The longest prefix of the trimmed input that is a StrDecimalLiteral
    is converted (StringNumericValue); without such a prefix the result
    is NaN. *)
Definition parseFloat (input : jsstring) : number :=
  let '(neg, u) := split_sign (trim_start input) in
  if is_prefix (str "Infinity") u then Infinity neg else
  let '(ip, r1) := span_digits u in
  let '(fp, r2) :=
    match r1 with
    | c :: r => if N.eqb c 46 then span_digits r else ([], r1)
    | [] => ([], r1)
    end in
  match ip ++ fp with
  | [] => NaN
  | ds => number_of_decimal neg (digits_value ds) (exponent_part r2 - Z.of_nat (length fp))
  end.

(** ** Language values *)

Inductive value :=
| VUndefined
| VNull
| VBoolean (b : bool)
| VNumber (n : number)
| VString (s : jsstring).

Definition ToBoolean (v : value) : bool :=
  match v with
  | VUndefined | VNull => false
  | VBoolean b => b
  | VNumber NaN | VNumber (Zero _) => false
  | VNumber _ => true
  | VString s => match s with [] => false | _ => true end
  end.

Definition ToString (v : value) : jsstring :=
  match v with
  | VUndefined => str "undefined"
  | VNull => str "null"
  | VBoolean b => if b then str "true" else str "false"
  | VNumber n => Number_toString n
  | VString s => s
  end.

(** [a || b] *)
Definition or_else (a b : value) : value := if ToBoolean a then a else b.

(** [String.prototype.replace] with a string pattern: the first
    occurrence of [search] is replaced. The replacement is taken
    literally, which is what the specification's GetSubstitution does for
    a replacement without "$". *)
Fixpoint String_replace (s search repl : jsstring) {struct s} : jsstring :=
  if is_prefix search s then repl ++ drop (length search) s
  else match s with
       | [] => []
       | c :: s' => c :: String_replace s' search repl
       end.

(** [v.replace(search, repl)] on an arbitrary value: only strings have
    the method; reading it from undefined or null throws, calling the
    missing method on a boolean or number throws. *)
Definition call_replace (v : value) (search repl : jsstring) : completion jsstring :=
  match v with
  | VString s => Normal (String_replace s search repl)
  | VUndefined | VNull => Throw (TypeError (str "Cannot read properties of undefined"))
  | _ => Throw (TypeError (str "replace is not a function"))
  end.

End JS.

Import JS.

(** * client/src/App.tsx *)

Module App.

(** [function formatPrice(amount: string | number)]; the call sites also
    pass [undefined] (an absent first variant). *)
Definition formatPrice (amount : value) : completion jsstring :=
  let n := parseFloat (ToString (or_else amount (VNumber pos_zero))) in
  match toFixed n 2 with
  | Normal fixed => Normal (str "$" ++ fixed)
  | Return => Return
  | Throw e => Throw e
  end.

(** ** Data *)

Record Price := { amount : jsstring }.

Record ShopifyVariant := {
  variant_id : jsstring;
  price : Price;
  variant_title : jsstring }.

Record Product := {
  id : jsstring;
  title : jsstring;
  description : jsstring;
  handle : jsstring;
  images : list jsstring;
  variants : list ShopifyVariant }.

(** Records as the platform returns them ([p: any]). The nested
    sequences are [None] when the property is absent from a malformed
    record, in which case calling [.map] on it throws. *)
Record RawImage := { src : jsstring }.

Record RawVariant := {
  raw_variant_id : jsstring;
  raw_price : Price;
  raw_variant_title : jsstring }.

Record RawProduct := {
  raw_id : jsstring;
  raw_title : jsstring;
  raw_description : jsstring;
  raw_handle : jsstring;
  raw_images : option (list RawImage);
  raw_variants : option (list RawVariant) }.

(** The body of the configuration response, read as an object; a field
    that is absent reads as [VUndefined]. *)
Record ConfigJson := {
  domain : value;
  storefrontAccessToken : value }.

(** The argument of [Client.buildClient]. *)
Record ClientConfig := {
  client_domain : jsstring;
  client_storefrontAccessToken : value;
  apiVersion : jsstring }.

Inductive ClientHandle := Client (config : ClientConfig).

Record LineItem := { variantId : jsstring; quantity : Z }.

Record Checkout := { checkout_id : jsstring; webUrl : jsstring }.

(** ** The collaborators *)

(** How a call into the browser or the platform SDK ends: a value (a
    fulfilled promise) or an exception (a rejected promise). *)
Inductive result (A : Type) :=
| Ok (a : A)
| Err (e : exn).
Arguments Ok {A} a.
Arguments Err {A} e.

Record Response := { json : result ConfigJson }.

Record Platform := {
  fetch : jsstring -> result Response;
  buildClient : ClientConfig -> result ClientHandle;
  product_fetchAll : ClientHandle -> result (list RawProduct);
  checkout_create : ClientHandle -> result Checkout;
  checkout_addLineItems : ClientHandle -> jsstring -> list LineItem -> result Checkout }.

(** ** Observable effects *)

Inductive logged :=
| LogString (s : jsstring)
| LogExn (e : exn).

Inductive event :=
| Fetch (url : jsstring)
| ReadJson
| BuildClient (config : ClientConfig)
| FetchAll
| CheckoutCreate
| AddLineItems (checkoutId : jsstring) (lineItems : list LineItem)
| Await
| Navigate (href : jsstring)
| Alert (message : jsstring)
| ConsoleError (args : list logged).

Definition is_network (ev : event) : bool :=
  match ev with
  | Fetch _ | ReadJson | FetchAll | CheckoutCreate | AddLineItems _ _ => true
  | _ => false
  end.

(** ** State: the module-level [client], the four [useState] cells of
    [AppContent], and the effects performed so far (oldest first). *)
Record World := {
  client : option ClientHandle;
  products : list Product;
  featured : list Product;
  loading : bool;
  configError : bool;
  trace : list event }.

Definition initial_world : World :=
  {| client := None; products := []; featured := [];
     loading := true; configError := false; trace := [] |}.

(** ** A state and completion monad *)

Definition M (A : Type) : Type := World -> completion A * World.

Definition ret {A} (a : A) : M A := fun w => (Normal a, w).

Definition bind {A B} (c : M A) (k : A -> M B) : M B :=
  fun w =>
    match c w with
    | (Normal a, w') => k a w'
    | (Return, w') => (Return, w')
    | (Throw e, w') => (Throw e, w')
    end.

Notation "x <- c ;; k" := (bind c (fun x => k))
  (at level 100, c at next level, right associativity).
Notation "c ;; k" := (bind c (fun _ => k))
  (at level 100, right associativity).

Definition throw {A} (e : exn) : M A := fun w => (Throw e, w).

(** [return;] *)
Definition return_ {A} : M A := fun w => (Return, w).

(** [try { body } catch (e) { handler }]: only a throw is caught. *)
Definition try_catch {A} (body : M A) (handler : exn -> M A) : M A :=
  fun w =>
    match body w with
    | (Throw e, w') => handler e w'
    | r => r
    end.

(** A function body: [return] completes the call. *)
Definition function_body (body : M unit) : M unit :=
  fun w =>
    match body w with
    | (Return, w') => (Normal tt, w')
    | r => r
    end.

Definition lift {A} (c : completion A) : M A := fun w => (c, w).

Definition emit (ev : event) : M unit :=
  fun w =>
    (Normal tt,
     {| client := client w; products := products w; featured := featured w;
        loading := loading w; configError := configError w;
        trace := trace w ++ [ev] |}).

(** [await e]: the call [e] has been made and returned a promise; the
    function is suspended and resumes with the promise's outcome. *)
Definition await {A} (ev : event) (r : result A) : M A :=
  emit ev ;; emit Await ;;
  match r with
  | Ok a => ret a
  | Err e => throw e
  end.

(** A synchronous call into a collaborator. *)
Definition call {A} (ev : event) (r : result A) : M A :=
  emit ev ;;
  match r with
  | Ok a => ret a
  | Err e => throw e
  end.

Definition setClient (c : ClientHandle) : M unit :=
  fun w =>
    (Normal tt,
     {| client := Some c; products := products w; featured := featured w;
        loading := loading w; configError := configError w; trace := trace w |}).

Definition setProducts (ps : list Product) : M unit :=
  fun w =>
    (Normal tt,
     {| client := client w; products := ps; featured := featured w;
        loading := loading w; configError := configError w; trace := trace w |}).

Definition setFeatured (ps : list Product) : M unit :=
  fun w =>
    (Normal tt,
     {| client := client w; products := products w; featured := ps;
        loading := loading w; configError := configError w; trace := trace w |}).

Definition setLoading (b : bool) : M unit :=
  fun w =>
    (Normal tt,
     {| client := client w; products := products w; featured := featured w;
        loading := b; configError := configError w; trace := trace w |}).

Definition setConfigError (b : bool) : M unit :=
  fun w =>
    (Normal tt,
     {| client := client w; products := products w; featured := featured w;
        loading := loading w; configError := b; trace := trace w |}).

Definition getClient : M (option ClientHandle) := fun w => (Normal (client w), w).

(** ** Mapping raw records (lines 59-70) *)

(** [xs.map(f)] where [f] may throw: the first exception ends the loop. *)
Fixpoint map_throwing {A B} (f : A -> completion B) (xs : list A) : completion (list B) :=
  match xs with
  | [] => Normal []
  | x :: xs' =>
    match f x with
    | Normal y =>
      match map_throwing f xs' with
      | Normal ys => Normal (y :: ys)
      | Return => Return
      | Throw e => Throw e
      end
    | Return => Return
    | Throw e => Throw e
    end
  end.

(** [xs.map(f)] on a property that may be absent. *)
Definition map_property {A B} (f : A -> B) (xs : option (list A)) : completion (list B) :=
  match xs with
  | Some l => Normal (map f l)
  | None => Throw (TypeError (str "Cannot read properties of undefined (reading 'map')"))
  end.

Definition map_variant (v : RawVariant) : ShopifyVariant :=
  {| variant_id := raw_variant_id v;
     price := raw_price v;
     variant_title := raw_variant_title v |}.

Definition map_product (p : RawProduct) : completion Product :=
  match map_property src (raw_images p) with
  | Normal imgs =>
    match map_property map_variant (raw_variants p) with
    | Normal vars =>
      Normal {| id := raw_id p;
                title := raw_title p;
                description := raw_description p;
                handle := raw_handle p;
                images := imgs;
                variants := vars |}
    | Return => Return
    | Throw e => Throw e
    end
  | Return => Return
  | Throw e => Throw e
  end.

(** ** The bootstrap effect (lines 37-78) *)

Section Collaborators.
Variable P : Platform.

Definition config_url : jsstring := str "/api/config/shopify".

Definition initializeAndLoad : M unit :=
  function_body (
    setLoading true ;;
    try_catch (
      configRes <- await (Fetch config_url) (fetch P config_url) ;;
      config <- await ReadJson (json configRes) ;;
      (if negb (ToBoolean (domain config)) || negb (ToBoolean (storefrontAccessToken config))
       then setConfigError true ;; setLoading false ;; return_
       else ret tt) ;;
      stripped <- lift (call_replace (domain config) (str "https://") []) ;;
      let cfg := {| client_domain := stripped;
                    client_storefrontAccessToken := storefrontAccessToken config;
                    apiVersion := str "2024-01" |} in
      c <- call (BuildClient cfg) (buildClient P cfg) ;;
      setClient c ;;
      prods <- await FetchAll (product_fetchAll P c) ;;
      mapped <- lift (map_throwing map_product prods) ;;
      setProducts mapped ;;
      setFeatured (take 3 mapped)
    ) (fun e =>
      emit (ConsoleError [LogString (str "Shopify fetch error"); LogExn e]) ;;
      setConfigError true) ;;
    setLoading false).

(** ** Checkout (lines 82-96) *)

(** [qty = 1]: the default applies when the argument is omitted. *)
Definition default_qty (qty : option Z) : Z :=
  match qty with
  | Some q => q
  | None => 1%Z
  end.

Definition startCheckout (variantId : jsstring) (qty : option Z) : M unit :=
  function_body (
    let qty := default_qty qty in
    c <- getClient ;;
    match c with
    | None => emit (Alert (str "Shopify client not initialized")) ;; return_
    | Some c =>
      try_catch (
        checkout <- await CheckoutCreate (checkout_create P c) ;;
        let lineItemsToAdd := [ {| variantId := variantId; quantity := qty |} ] in
        updated <- await (AddLineItems (checkout_id checkout) lineItemsToAdd)
                         (checkout_addLineItems P c (checkout_id checkout) lineItemsToAdd) ;;
        emit (Navigate (webUrl updated))
      ) (fun e =>
        emit (ConsoleError [LogExn e]) ;;
        emit (Alert (str "Could not start checkout. Check console for details.")))
    end).

End Collaborators.

(** ** Rendering (lines 98-221): the configuration-error page, or the
    two product grids of the store page. *)

Record Card := {
  testid : jsstring;
  img_src : jsstring;
  card_title : jsstring;
  card_price : jsstring }.

Inductive element :=
| Indicator (testid : jsstring)
| CardElement (c : Card).

Inductive view :=
| ConfigErrorPage
| StorePage (featuredGrid : list element) (grid : list element).

(** [p.variants[0]?.price.amount] *)
Definition first_variant_amount (p : Product) : value :=
  match variants p !! 0%nat with
  | None => VUndefined
  | Some v => VString (amount (price v))
  end.

(** [p.images[0] || "/placeholder.png"] *)
Definition first_image (p : Product) : jsstring :=
  match images p !! 0%nat with
  | Some (c :: s) => c :: s
  | _ => str "/placeholder.png"
  end.

Definition render_price (p : Product) : completion jsstring :=
  formatPrice (first_variant_amount p).

Definition render_card (testid_prefix : jsstring) (p : Product) : completion element :=
  match render_price p with
  | Normal shown =>
    Normal (CardElement {| testid := testid_prefix ++ id p;
                           img_src := first_image p;
                           card_title := title p;
                           card_price := shown |})
  | Return => Return
  | Throw e => Throw e
  end.

Definition render (w : World) : completion view :=
  if configError w then Normal ConfigErrorPage else
  match (if loading w then Normal [Indicator (str "loading-featured")]
         else map_throwing (render_card (str "card-featured-")) (featured w)) with
  | Normal featuredGrid =>
    match map_throwing (render_card (str "card-product-")) (products w) with
    | Normal cards =>
      Normal (StorePage featuredGrid
                ((if loading w then [Indicator (str "loading-products")] else [])
                 ++ (if negb (loading w) && (length (products w) =? 0)%nat
                     then [Indicator (str "no-products")] else [])
                 ++ cards))
    | Return => Return
    | Throw e => Throw e
    end
  | Return => Return
  | Throw e => Throw e
  end.

(** The click handlers of the two buttons: [startCheckout(p.variants[0].id)]. *)
Definition buy_click (P : Platform) (p : Product) : M unit :=
  match variants p !! 0%nat with
  | None => throw (TypeError (str "Cannot read properties of undefined (reading 'id')"))
  | Some v => startCheckout P (variant_id v) None
  end.

End App.

(** * server/routes.ts *)

Module Server.

(** [process.env]: the variables that are set, with their values. *)
Abbreviation Env := (gmap jsstring jsstring).

(** [process.env.NAME] *)
Definition env_get (env : Env) (name : jsstring) : value :=
  match env !! name with
  | Some s => VString s
  | None => VUndefined
  end.

(** The response object: Express starts it with status 200, and
    [res.json(obj)] sends [obj] as the body without touching the status. *)
Record Res := {
  statusCode : Z;
  body : option (list (jsstring * value)) }.

Definition fresh_res : Res := {| statusCode := 200; body := None |}.

Definition res_json (obj : list (jsstring * value)) (res : Res) : Res :=
  {| statusCode := statusCode res; body := Some obj |}.

Record Req := { method : jsstring; path : jsstring }.

Record Route := {
  route_method : jsstring;
  route_path : jsstring;
  route_handler : Env -> Req -> Res -> Res }.

(** The application: its routes in registration order. *)
Definition Express := list Route.

(** [app.get(path, handler)] *)
Definition app_get (path : jsstring) (handler : Env -> Req -> Res -> Res)
    (app : Express) : Express :=
  app ++ [ {| route_method := str "GET"; route_path := path; route_handler := handler |} ].

(** The handler of lines 7-12. *)
Definition shopify_config (env : Env) (req : Req) (res : Res) : Res :=
  res_json
    [ (str "domain",
       or_else (env_get env (str "SHOPIFY_STORE_DOMAIN")) (VString []));
      (str "storefrontAccessToken",
       or_else (env_get env (str "SHOPIFY_STOREFRONT_ACCESS_TOKEN")) (VString [])) ]
    res.

Definition registerRoutes (app : Express) : Express :=
  app_get (str "/api/config/shopify") shopify_config app.

Definition jsstring_eqb (a b : jsstring) : bool := bool_decide (a = b).

(** Serving a request: the first route registered for the method and
    the exact path handles it. *)
Fixpoint serve (app : Express) (env : Env) (req : Req) : option Res :=
  match app with
  | [] => None
  | r :: app' =>
    if jsstring_eqb (route_method r) (method req) && jsstring_eqb (route_path r) (path req)
    then Some (route_handler r env req fresh_res)
    else serve app' env req
  end.

Definition get_shopify_config : Req :=
  {| method := str "GET"; path := str "/api/config/shopify" |}.

(** What the client's [configRes.json()] reads from such a body. *)
Definition field (obj : list (jsstring * value)) (name : jsstring) : value :=
  match List.find (fun kv => jsstring_eqb (fst kv) name) obj with
  | Some kv => snd kv
  | None => VUndefined
  end.

Definition client_response (res : Res) : App.Response :=
  {| App.json :=
       match body res with
       | Some obj =>
         App.Ok {| App.domain := field obj (str "domain");
                   App.storefrontAccessToken := field obj (str "storefrontAccessToken") |}
       | None => App.Err (TypeError (str "Unexpected end of JSON input"))
       end |}.

End Server.

(** * Auxiliary definitions for the statements *)

Module Scenarios.
Import App.

(** The effects a computation adds to the trace of the world it starts in. *)
Definition events_of {A} (m : M A) (w : World) : list event :=
  drop (length (trace w)) (trace (snd (m w))).

Definition count (f : event -> bool) (evs : list event) : nat :=
  length (List.filter f evs).

Definition is_create (ev : event) : bool :=
  match ev with CheckoutCreate => true | _ => false end.

Definition is_add (ev : event) : bool :=
  match ev with AddLineItems _ _ => true | _ => false end.

Definition is_navigate (ev : event) : bool :=
  match ev with Navigate _ => true | _ => false end.

Definition is_build (ev : event) : bool :=
  match ev with BuildClient _ => true | _ => false end.

Definition is_fetchAll (ev : event) : bool :=
  match ev with FetchAll => true | _ => false end.

Definition is_await (ev : event) : bool :=
  match ev with Await => true | _ => false end.

(** Characters of a URL scheme after its first letter (RFC 3986). *)
Definition is_scheme_char (c : N) : bool :=
  ((97 <=? c) && (c <=? 122) || (65 <=? c) && (c <=? 90) || (48 <=? c) && (c <=? 57)
   || (c =? 43) || (c =? 45) || (c =? 46))%N.

(** The reading of "stripping any URL scheme prefix from the domain" in
    the specification's words: a leading run of scheme characters followed
    by "://" is removed, whatever the scheme. *)
Fixpoint spec_strip_scheme_go (s whole : jsstring) : jsstring :=
  match s with
  | c :: s' =>
    if is_prefix (str "://") s then drop 3 s
    else if is_scheme_char c then spec_strip_scheme_go s' whole
    else whole
  | [] => whole
  end.

Definition spec_strip_scheme (s : jsstring) : jsstring :=
  match s with
  | c :: _ => if is_scheme_char c then spec_strip_scheme_go s s else s
  | [] => []
  end.

(** [pat] occurs in [s]. *)
Definition occurs (pat s : jsstring) : Prop :=
  exists before after, s = before ++ pat ++ after.

(** The configuration that line 51 passes to [Client.buildClient] for a
    string domain [d]. *)
Definition built_config (d : jsstring) (token : value) : ClientConfig :=
  {| client_domain := String_replace d (str "https://") [];
     client_storefrontAccessToken := token;
     apiVersion := str "2024-01" |}.

Definition absent_config : ConfigJson :=
  {| domain := VUndefined; storefrontAccessToken := VUndefined |}.

(** A platform whose calls end as given; the client handle wraps the
    configuration it was built from. *)
Definition stub_platform (config : result ConfigJson)
    (catalog : result (list RawProduct))
    (created : result Checkout) (added : result Checkout) : Platform :=
  {| fetch := fun _ => Ok {| json := config |};
     buildClient := fun cfg => Ok (Client cfg);
     product_fetchAll := fun _ => catalog;
     checkout_create := fun _ => created;
     checkout_addLineItems := fun _ _ _ => added |}.

Definition store_config (d : string) : ConfigJson :=
  {| domain := VString (str d); storefrontAccessToken := VString (str "token-123") |}.

Definition raw_tee (n : string) (amt : string) : RawProduct :=
  {| raw_id := str n; raw_title := str "Tee"; raw_description := [];
     raw_handle := str "tee";
     raw_images := Some [ {| src := str "https://cdn.example/tee.png" |} ];
     raw_variants := Some [ {| raw_variant_id := str "v1";
                               raw_price := {| amount := str amt |};
                               raw_variant_title := str "M" |} ] |}.

(** A record that lacks its [images]. *)
Definition raw_malformed : RawProduct :=
  {| raw_id := str "bad"; raw_title := str "Bad"; raw_description := [];
     raw_handle := str "bad"; raw_images := None; raw_variants := Some [] |}.

Definition four_tees : list RawProduct :=
  [raw_tee "a" "19.5"; raw_tee "b" "25"; raw_tee "c" "30.00"; raw_tee "d" "5"].

Definition session : Checkout :=
  {| checkout_id := str "co-1"; webUrl := str "https://crush.myshopify.com/checkouts/co-1" |}.

Definition full_store : Platform :=
  stub_platform (Ok (store_config "https://crush.myshopify.com")) (Ok four_tees)
    (Ok session) (Ok session).

Definition empty_store : Platform :=
  stub_platform (Ok (store_config "crush.myshopify.com")) (Ok []) (Ok session) (Ok session).

Definition http_store : Platform :=
  stub_platform (Ok (store_config "http://crush.myshopify.com")) (Ok four_tees)
    (Ok session) (Ok session).

Definition unconfigured : Platform :=
  stub_platform (Ok {| domain := VString []; storefrontAccessToken := VString (str "token-123") |})
    (Ok four_tees) (Ok session) (Ok session).

Definition malformed_store : Platform :=
  stub_platform (Ok (store_config "crush.myshopify.com"))
    (Ok [raw_tee "a" "19.5"; raw_malformed]) (Ok session) (Ok session).

Definition create_rejecting : Platform :=
  stub_platform (Ok (store_config "crush.myshopify.com")) (Ok four_tees)
    (Err (Rejection (str "network error"))) (Ok session).

Definition add_rejecting : Platform :=
  stub_platform (Ok (store_config "crush.myshopify.com")) (Ok four_tees)
    (Ok session) (Err (Rejection (str "invalid variant"))).

Definition the_client : ClientHandle :=
  Client {| client_domain := str "crush.myshopify.com";
            client_storefrontAccessToken := VString (str "token-123");
            apiVersion := str "2024-01" |}.

(** The world after a successful bootstrap of [empty_store]. *)
Definition ready_world : World :=
  {| client := Some the_client; products := []; featured := [];
     loading := false; configError := false; trace := [] |}.

(** The notification of line 94. *)
Definition could_not_start : jsstring :=
  str "Could not start checkout. Check console for details.".

(** The names of the two environment variables. *)
Definition STORE_DOMAIN : jsstring := str "SHOPIFY_STORE_DOMAIN".
Definition ACCESS_TOKEN : jsstring := str "SHOPIFY_STOREFRONT_ACCESS_TOKEN".

(** The client talking to the server running in environment [env]. *)
Definition served_by (env : Server.Env) : Platform :=
  stub_platform
    (match Server.serve (Server.registerRoutes []) env Server.get_shopify_config with
     | Some res => json (Server.client_response res)
     | None => Err (TypeError (str "Failed to fetch"))
     end)
    (Ok four_tees) (Ok session) (Ok session).

Definition hoodie_without_variants : Product :=
  {| id := str "p1"; title := str "Hoodie"; description := [];
     handle := str "hoodie"; images := []; variants := [] |}.

(** ** Further vocabulary for statements about traces and pages *)

Definition is_alert (ev : event) : bool :=
  match ev with Alert _ => true | _ => false end.

Definition is_console_error (ev : event) : bool :=
  match ev with ConsoleError _ => true | _ => false end.

Definition is_fetch (ev : event) : bool :=
  match ev with Fetch _ => true | _ => false end.

(** The log entry of line 74. *)
Definition shopify_fetch_error (e : exn) : event :=
  ConsoleError [LogString (str "Shopify fetch error"); LogExn e].

(** A raw record on which both [.map] calls of lines 64-65 can run. *)
Definition well_formed (p : RawProduct) : bool :=
  match raw_images p, raw_variants p with
  | Some _, Some _ => true
  | _, _ => false
  end.

Definition element_testid (el : element) : jsstring :=
  match el with
  | Indicator t => t
  | CardElement c => testid c
  end.

Definition is_card (el : element) : bool :=
  match el with CardElement _ => true | Indicator _ => false end.

(** The world in which a failed bootstrap ends. *)
Definition failed (w : World) (c : option ClientHandle) (evs : list event) : World :=
  {| client := c; products := products w; featured := featured w;
     loading := false; configError := true; trace := trace w ++ evs |}.

Definition offline : Platform :=
  {| fetch := fun _ => Err (Rejection (str "Failed to fetch"));
     buildClient := fun cfg => Ok (Client cfg);
     product_fetchAll := fun _ => Ok [];
     checkout_create := fun _ => Ok session;
     checkout_addLineItems := fun _ _ _ => Ok session |}.

Definition catalog_down : Platform :=
  stub_platform (Ok (store_config "crush.myshopify.com"))
    (Err (Rejection (str "503"))) (Ok session) (Ok session).

Definition boolean_domain : Platform :=
  stub_platform (Ok {| domain := VBoolean true;
                       storefrontAccessToken := VString (str "token-123") |})
    (Ok four_tees) (Ok session) (Ok session).

Definition small_size : ShopifyVariant :=
  {| variant_id := str "v-small"; price := {| amount := str "25.00" |};
     variant_title := str "S" |}.

Definition large_size : ShopifyVariant :=
  {| variant_id := str "v-large"; price := {| amount := str "27.00" |};
     variant_title := str "L" |}.

Definition two_sizes : Product :=
  {| id := str "p2"; title := str "Tee"; description := []; handle := str "tee";
     images := [str "https://cdn.example/tee.png"];
     variants := [small_size; large_size] |}.

(** The number that [formatPrice] hands to [toFixed]. *)
Definition parsed_amount (v : value) : number :=
  parseFloat (ToString (or_else v (VNumber pos_zero))).

(** Zero, or finite and below 10^21 in magnitude: the range in which
    [toFixed] prints fixed-point digits. *)
Definition fixed_range (n : number) : bool :=
  match n with
  | Zero _ => true
  | Finite _ m e =>
    let '(num, den) := fraction_of m e in negb (10 ^ 21 * den <=? num)%Z
  | _ => false
  end.

(** The document of lines 8-11 for an environment. *)
Definition config_document (env : Server.Env) : Server.Res :=
  {| Server.statusCode := 200;
     Server.body :=
       Some [ (str "domain", VString (default [] (env !! STORE_DOMAIN)));
              (str "storefrontAccessToken", VString (default [] (env !! ACCESS_TOKEN))) ] |}.

Definition is_get_shopify_config (req : Server.Req) : bool :=
  Server.jsstring_eqb (str "GET") (Server.method req)
  && Server.jsstring_eqb (str "/api/config/shopify") (Server.path req).

(** What a card shows of its product. *)
Definition shows (testid_prefix : jsstring) (p : Product) (el : element) : Prop :=
  exists c fixed,
    el = CardElement c
    /\ testid c = testid_prefix ++ id p
    /\ img_src c = first_image p
    /\ card_title c = title p
    /\ card_price c = str "$" ++ fixed.

(** A string of decimal digits. *)
Definition all_digits (s : jsstring) : Prop := Forall (fun c => is_digit c = true) s.

(** The value of a digit character. *)
Definition digit_of (c : N) : Z := (Z.of_N c - 48)%Z.

End Scenarios.

(** * Properties of price formatting *)

Module PriceFacts.
Import App Scenarios.

(** The built-ins on some inputs. *)
Example parseFloat_19_5 :
  parseFloat (str "19.5") = Finite false 5488762045857792 (-48).
Proof. reflexivity. Qed.

Example parseFloat_prefix :
  parseFloat (str "  12.5abc") = parseFloat (str "12.5")
  /\ parseFloat (str "1e") = parseFloat (str "1")
  /\ parseFloat (str "-.5e1") = parseFloat (str "-5")
  /\ parseFloat (str ".") = NaN
  /\ parseFloat (str "$12") = NaN
  /\ parseFloat (str "-Infinity") = Infinity true
  /\ parseFloat (str "1e400") = Infinity false.
Proof. repeat split. Qed.

Example Number_toString_samples :
  Number_toString (parseFloat (str "0.1")) = str "0.1"
  /\ Number_toString (parseFloat (str "100")) = str "100"
  /\ Number_toString (parseFloat (str "0.30000000000000004")) = str "0.30000000000000004"
  /\ Number_toString (parseFloat (str "1e21")) = str "1e+21"
  /\ Number_toString (parseFloat (str "0.0000001")) = str "1e-7"
  /\ Number_toString (parseFloat (str "123456789012345678901")) = str "123456789012345680000"
  /\ Number_toString (parseFloat (str "-5e-324")) = str "-5e-324".
Proof. repeat split. Qed.

Example formatPrice_samples :
  formatPrice (VString (str "1.005")) = Normal (str "$1.00")
  /\ formatPrice (VString (str "0.125")) = Normal (str "$0.13")
  /\ formatPrice (VString (str "8.345")) = Normal (str "$8.35")
  /\ formatPrice (VString (str "-0.001")) = Normal (str "$-0.00")
  /\ formatPrice (VString (str "12abc")) = Normal (str "$12.00")
  /\ formatPrice (VString (str "1,000.50")) = Normal (str "$1.00")
  /\ formatPrice (VString (str "1e21")) = Normal (str "$1e+21")
  /\ formatPrice (VString (str "Infinity")) = Normal (str "$Infinity")
  /\ formatPrice (VNumber (parseFloat (str "19.5"))) = Normal (str "$19.50")
  /\ formatPrice VNull = Normal (str "$0.00").
Proof. repeat split. Qed.

Lemma toFixed_two_normal (x : number) : exists shown, toFixed x 2 = Normal shown.
Proof.
  unfold toFixed.
  replace ((2 <? 0)%Z || (100 <? 2)%Z) with false by reflexivity.
  destruct x as [ | neg | neg | neg m e]; eauto.
  destruct (fraction_of m e) as [num den].
  destruct (10 ^ 21 * den <=? num)%Z; eauto.
Qed.

Lemma formatPrice_normal (v : value) : exists shown, formatPrice v = Normal shown.
Proof.
  unfold formatPrice.
  destruct (toFixed_two_normal (parseFloat (ToString (or_else v (VNumber pos_zero)))))
    as [shown ->].
  eauto.
Qed.

Lemma formatPrice_falsy (v : value) :
  ToBoolean v = false -> formatPrice v = Normal (str "$0.00").
Proof.
  intros Hv. unfold formatPrice, or_else. rewrite Hv. reflexivity.
Qed.

(** A non-empty string without a numeric prefix is shown as "$NaN". *)
Lemma formatPrice_not_a_number (s : jsstring) :
  s <> [] -> parseFloat s = NaN -> formatPrice (VString s) = Normal (str "$NaN").
Proof.
  intros Hs Hnan. unfold formatPrice, or_else.
  destruct s as [ | c s]; [congruence | ].
  cbn [ToBoolean ToString]. rewrite Hnan. reflexivity.
Qed.

(** C3, as stated, fails: "abc" is truthy, so [|| 0] does not apply, and
    [parseFloat] yields NaN, which [toFixed] prints as "NaN". *)
Lemma formatPrice_malformed_counterexample :
  formatPrice (VString (str "abc")) = Normal (str "$NaN")
  /\ formatPrice (VString (str "abc")) <> Normal (str "$0.00").
Proof. split; [ reflexivity | discriminate ]. Qed.

(** C3 (amended): "19.5" is shown as "$19.50"; "0" and every missing or
    empty input (every falsy value: undefined, null, the empty string,
    zero, NaN) are shown as "$0.00"; and no input whatsoever, malformed
    numeric strings included, makes the function throw. The fallback to 0
    is for falsy inputs only. *)
Theorem formatPrice_spec (v : value) :
  formatPrice (VString (str "19.5")) = Normal (str "$19.50")
  /\ formatPrice (VString (str "0")) = Normal (str "$0.00")
  /\ formatPrice VUndefined = Normal (str "$0.00")
  /\ (ToBoolean v = false -> formatPrice v = Normal (str "$0.00"))
  /\ (exists shown, formatPrice v = Normal shown).
Proof.
  repeat split; try reflexivity.
  - apply formatPrice_falsy.
  - apply formatPrice_normal.
Qed.

Lemma formatPrice_spec_witness :
  ToBoolean (VString []) = false
  /\ formatPrice (VString []) = Normal (str "$0.00").
Proof.
  split; [ reflexivity | ].
  apply (formatPrice_spec (VString [])). reflexivity.
Defined.

(** C9: a product without variants renders its price without throwing:
    the optional chaining on the first variant yields undefined, and the
    price shown, also on the product's card, is "$0.00". *)
Theorem render_price_no_variants (p : Product) :
  variants p = [] ->
  first_variant_amount p = VUndefined
  /\ render_price p = Normal (str "$0.00")
  /\ forall testid_prefix,
       render_card testid_prefix p
       = Normal (CardElement {| testid := testid_prefix ++ id p;
                                img_src := first_image p;
                                card_title := title p;
                                card_price := str "$0.00" |}).
Proof.
  intros Hv.
  assert (Hamount : first_variant_amount p = VUndefined).
  { unfold first_variant_amount. now rewrite Hv. }
  assert (Hprice : render_price p = Normal (str "$0.00")).
  { unfold render_price. now rewrite Hamount. }
  repeat split; trivial.
  intros testid_prefix. unfold render_card. now rewrite Hprice.
Qed.

Lemma render_price_no_variants_witness :
  variants hoodie_without_variants = []
  /\ render_price hoodie_without_variants = Normal (str "$0.00").
Proof.
  split; [ reflexivity | ].
  apply (render_price_no_variants hoodie_without_variants). reflexivity.
Defined.

End PriceFacts.
(** * Proof support *)

Ltac run_monad :=
  unfold App.function_body, App.try_catch, App.bind, App.await, App.call, App.emit,
    App.lift, App.ret, App.throw, App.return_, App.setClient, App.setProducts,
    App.setFeatured, App.setLoading, App.setConfigError, App.getClient.

Ltac same_world := cbn; rewrite <- ?List.app_assoc; reflexivity.

(** * Facts about the built-ins *)

Module JSFacts.

Lemma is_prefix_app (p s : jsstring) : is_prefix p (p ++ s) = true.
Proof.
  induction p as [ | c p IH]; cbn; [ reflexivity | ].
  now rewrite N.eqb_refl, IH.
Qed.

Lemma is_prefix_true (p s : jsstring) :
  is_prefix p s = true -> exists t, s = p ++ t.
Proof.
  revert s. induction p as [ | c p IH]; intros s H.
  - now exists s.
  - destruct s as [ | c' s]; cbn in H; [ discriminate | ].
    apply andb_true_iff in H as [Hc Hp].
    apply N.eqb_eq in Hc as ->.
    destruct (IH _ Hp) as [t ->]. now exists t.
Qed.

Lemma String_replace_unfold (s search repl : jsstring) :
  String_replace s search repl
  = if is_prefix search s then repl ++ drop (length search) s
    else match s with
         | [] => []
         | c :: s' => c :: String_replace s' search repl
         end.
Proof. destruct s; reflexivity. Qed.

(** A leading occurrence of the pattern is the one removed. *)
Lemma String_replace_prefix (pat rest : jsstring) :
  String_replace (pat ++ rest) pat [] = rest.
Proof.
  rewrite String_replace_unfold, is_prefix_app. cbn.
  now rewrite drop_app_length.
Qed.

(** Without an occurrence of the pattern the string is unchanged. *)
Lemma String_replace_absent (s pat repl : jsstring) :
  ~ Scenarios.occurs pat s -> String_replace s pat repl = s.
Proof.
  induction s as [ | c s IH]; intros Hno; rewrite String_replace_unfold.
  - destruct (is_prefix pat []) eqn:Hp; [ | reflexivity ].
    destruct (is_prefix_true _ _ Hp) as [t Ht].
    exfalso. apply Hno. exists [], t. exact Ht.
  - destruct (is_prefix pat (c :: s)) eqn:Hp.
    + destruct (is_prefix_true _ _ Hp) as [t Ht].
      exfalso. apply Hno. exists [], t. exact Ht.
    + f_equal. apply IH. intros (before & after & ->).
      apply Hno. now exists (c :: before), after.
Qed.

End JSFacts.

(** * Properties of the catalog bootstrap *)

Module BootstrapFacts.
Import App Scenarios.

Local Arguments str : simpl never.
Local Arguments config_url : simpl never.
Local Arguments String_replace : simpl never.

Lemma bootstrap_config_falsy (P : Platform) (w : World) resp cfg :
  fetch P config_url = Ok resp ->
  json resp = Ok cfg ->
  ToBoolean (domain cfg) = false \/ ToBoolean (storefrontAccessToken cfg) = false ->
  initializeAndLoad P w
  = (Normal tt,
     {| client := client w; products := products w; featured := featured w;
        loading := false; configError := true;
        trace := trace w ++ [Fetch config_url; Await; ReadJson; Await] |}).
Proof.
  intros Hfetch Hjson Hfalsy.
  assert (Hcond : negb (ToBoolean (domain cfg))
                  || negb (ToBoolean (storefrontAccessToken cfg)) = true).
  { destruct Hfalsy as [-> | ->]; [ reflexivity | apply orb_true_r ]. }
  unfold initializeAndLoad. run_monad. cbn.
  rewrite Hfetch. cbn. rewrite Hjson. cbn. rewrite Hcond. same_world.
Qed.

Lemma bootstrap_success (P : Platform) (w : World) resp cfg d c prods mapped :
  fetch P config_url = Ok resp ->
  json resp = Ok cfg ->
  domain cfg = VString d -> d <> [] ->
  ToBoolean (storefrontAccessToken cfg) = true ->
  buildClient P (built_config d (storefrontAccessToken cfg)) = Ok c ->
  product_fetchAll P c = Ok prods ->
  map_throwing map_product prods = Normal mapped ->
  initializeAndLoad P w
  = (Normal tt,
     {| client := Some c; products := mapped; featured := take 3 mapped;
        loading := false; configError := configError w;
        trace := trace w ++ [Fetch config_url; Await; ReadJson; Await;
                             BuildClient (built_config d (storefrontAccessToken cfg));
                             FetchAll; Await] |}).
Proof.
  intros Hfetch Hjson Hdom Hd Htok Hbuild Hall Hmap.
  unfold initializeAndLoad. run_monad. cbn.
  rewrite Hfetch. cbn. rewrite Hjson. cbn. rewrite Hdom, Htok.
  destruct d as [ | ch d']; [ congruence | ].
  cbn. unfold built_config in Hbuild. rewrite Hbuild. cbn. rewrite Hall. cbn.
  rewrite Hmap. same_world.
Qed.

Lemma bootstrap_failure_keeps_lists (P : Platform) (w : World) :
  configError w = false ->
  configError (snd (initializeAndLoad P w)) = true ->
  products (snd (initializeAndLoad P w)) = products w
  /\ featured (snd (initializeAndLoad P w)) = featured w.
Proof.
  intros Hw. unfold initializeAndLoad. run_monad. cbn.
  destruct (fetch P config_url) as [resp | e]; cbn; [ | auto ].
  destruct (json resp) as [cfg | e]; cbn; [ | auto ].
  destruct (negb (ToBoolean (domain cfg)) || negb (ToBoolean (storefrontAccessToken cfg)));
    cbn; [ auto | ].
  destruct (call_replace (domain cfg) (str "https://") []) as [stripped | | e];
    cbn; [ | rewrite Hw; discriminate | auto ].
  match goal with |- context [buildClient P ?c] => destruct (buildClient P c) as [c' | e] end;
    cbn; [ | auto ].
  destruct (product_fetchAll P c') as [prods | e]; cbn; [ | auto ].
  destruct (map_throwing map_product prods) as [mapped | | e];
    cbn; [ | rewrite Hw; discriminate | auto ].
  rewrite Hw. discriminate.
Qed.

Lemma map_throwing_Forall2 {A B} (f : A -> completion B) (xs : list A) (ys : list B) :
  map_throwing f xs = Normal ys -> Forall2 (fun x y => f x = Normal y) xs ys.
Proof.
  revert ys. induction xs as [ | x xs IH]; intros ys H; cbn in H.
  - injection H as <-. constructor.
  - destruct (f x) as [y | | e] eqn:Hx; try discriminate.
    destruct (map_throwing f xs) as [ys' | | e]; try discriminate.
    injection H as <-. constructor; auto.
Qed.

Lemma take_min_length {A} (l : list A) (n : nat) :
  take n l = take (Nat.min (length l) n) l.
Proof.
  destruct (Nat.le_ge_cases n (length l)) as [Hle | Hge].
  - now rewrite Nat.min_r.
  - rewrite Nat.min_l by assumption. now rewrite !take_ge by lia.
Qed.

(** C1: after a successful catalog fetch of N records that map to
    products, the catalog is those N products in the platform's order,
    the featured list is the first min(N,3) of them in the same order,
    the bootstrap is Ready, and an empty catalog renders the "no-products"
    indicator as the only element of the shop grid. *)
Theorem catalog_partition (P : Platform) resp cfg d c prods mapped :
  fetch P config_url = Ok resp ->
  json resp = Ok cfg ->
  domain cfg = VString d -> d <> [] ->
  ToBoolean (storefrontAccessToken cfg) = true ->
  buildClient P (built_config d (storefrontAccessToken cfg)) = Ok c ->
  product_fetchAll P c = Ok prods ->
  map_throwing map_product prods = Normal mapped ->
  let w' := snd (initializeAndLoad P initial_world) in
  products w' = mapped
  /\ Forall2 (fun raw p => map_product raw = Normal p) prods (products w')
  /\ length (products w') = length prods
  /\ featured w' = take (Nat.min (length prods) 3) (products w')
  /\ length (featured w') = Nat.min (length prods) 3
  /\ loading w' = false
  /\ configError w' = false
  /\ (length prods = 0%nat ->
      render w' = Normal (StorePage [] [Indicator (str "no-products")])).
Proof.
  intros Hfetch Hjson Hdom Hd Htok Hbuild Hall Hmap w'.
  subst w'.
  rewrite (bootstrap_success P initial_world _ _ _ _ _ _
             Hfetch Hjson Hdom Hd Htok Hbuild Hall Hmap).
  cbn [snd products featured loading configError initial_world].
  pose proof (map_throwing_Forall2 _ _ _ Hmap) as Hall2.
  pose proof (Forall2_length _ _ _ Hall2) as Hlen.
  repeat split; auto.
  - rewrite Hlen. apply take_min_length.
  - rewrite length_take. lia.
  - intros Hzero. rewrite Hzero in Hlen.
    destruct mapped; [ reflexivity | discriminate ].
Qed.

Lemma catalog_partition_witness :
  product_fetchAll empty_store the_client = Ok []
  /\ length (@nil RawProduct) = 0%nat
  /\ render (snd (initializeAndLoad empty_store initial_world))
     = Normal (StorePage [] [Indicator (str "no-products")]).
Proof.
  split; [ reflexivity | split; [ reflexivity | ] ].
  apply (catalog_partition empty_store
           {| json := Ok (store_config "crush.myshopify.com") |}
           (store_config "crush.myshopify.com")
           (str "crush.myshopify.com") the_client [] []
           eq_refl eq_refl eq_refl ltac:(discriminate) eq_refl eq_refl eq_refl eq_refl).
  reflexivity.
Defined.

(** Four products: all four in the catalog, the first three featured. *)
Example four_tees_partition :
  let w' := snd (initializeAndLoad full_store initial_world) in
  map id (products w') = [str "a"; str "b"; str "c"; str "d"]
  /\ map id (featured w') = [str "a"; str "b"; str "c"]
  /\ loading w' = false /\ configError w' = false.
Proof. repeat split. Qed.

(** C2: when the domain or the access token of the configuration is
    empty or missing (falsy), the bootstrap ends in ConfigError having
    only fetched and read the configuration: no client is built, no
    catalog is fetched, and the run is the same as for a configuration
    with both fields absent. *)
Theorem config_error_on_missing_field (P : Platform) (w : World) resp cfg :
  fetch P config_url = Ok resp ->
  json resp = Ok cfg ->
  ToBoolean (domain cfg) = false \/ ToBoolean (storefrontAccessToken cfg) = false ->
  let w' := snd (initializeAndLoad P w) in
  configError w' = true
  /\ loading w' = false
  /\ events_of (initializeAndLoad P) w = [Fetch config_url; Await; ReadJson; Await]
  /\ count is_build (events_of (initializeAndLoad P) w) = 0%nat
  /\ count is_fetchAll (events_of (initializeAndLoad P) w) = 0%nat
  /\ client w' = client w
  /\ products w' = products w
  /\ (forall P0 resp0,
        fetch P0 config_url = Ok resp0 -> json resp0 = Ok absent_config ->
        initializeAndLoad P w = initializeAndLoad P0 w).
Proof.
  intros Hfetch Hjson Hfalsy w'. subst w'.
  assert (Hev : events_of (initializeAndLoad P) w
                = [Fetch config_url; Await; ReadJson; Await]).
  { unfold events_of. rewrite (bootstrap_config_falsy P w _ _ Hfetch Hjson Hfalsy).
    cbn [snd trace]. apply drop_app_length. }
  rewrite Hev.
  rewrite (bootstrap_config_falsy P w _ _ Hfetch Hjson Hfalsy).
  repeat split.
  intros P0 resp0 Hfetch0 Hjson0.
  rewrite (bootstrap_config_falsy P0 w resp0 absent_config Hfetch0 Hjson0);
    [ reflexivity | now left ].
Qed.

Lemma config_error_on_missing_field_witness :
  ToBoolean (domain {| domain := VString []; storefrontAccessToken := VString (str "token-123") |})
  = false
  /\ configError (snd (initializeAndLoad unconfigured initial_world)) = true.
Proof.
  split; [ reflexivity | ].
  apply (config_error_on_missing_field unconfigured initial_world
           {| json := Ok {| domain := VString [];
                            storefrontAccessToken := VString (str "token-123") |} |}
           {| domain := VString []; storefrontAccessToken := VString (str "token-123") |}
           eq_refl eq_refl (or_introl eq_refl)).
Defined.

(** C8, as stated, fails: a domain given with the scheme "http://"
    reaches [Client.buildClient] with the scheme still in place. *)
Lemma scheme_not_stripped_counterexample :
  client (snd (initializeAndLoad http_store initial_world))
  = Some (Client {| client_domain := str "http://crush.myshopify.com";
                    client_storefrontAccessToken := VString (str "token-123");
                    apiVersion := str "2024-01" |})
  /\ spec_strip_scheme (str "http://crush.myshopify.com") = str "crush.myshopify.com"
  /\ str "http://crush.myshopify.com" <> str "crush.myshopify.com".
Proof. repeat split. discriminate. Qed.

(** C8 (amended): for a non-empty string domain and a token, the client
    is built exactly once, from the domain with its first occurrence of
    the literal "https://" removed: a leading "https://" is stripped, and
    a domain in which "https://" does not occur (any other scheme, or
    none) is passed on unchanged. *)
Theorem client_domain_https_removed (P : Platform) (w : World) resp cfg d :
  fetch P config_url = Ok resp ->
  json resp = Ok cfg ->
  domain cfg = VString d -> d <> [] ->
  ToBoolean (storefrontAccessToken cfg) = true ->
  let built := built_config d (storefrontAccessToken cfg) in
  client_domain built = String_replace d (str "https://") []
  /\ (exists rest,
      events_of (initializeAndLoad P) w
      = [Fetch config_url; Await; ReadJson; Await; BuildClient built] ++ rest
      /\ count is_build rest = 0%nat)
  /\ (forall c, buildClient P built = Ok c ->
                client (snd (initializeAndLoad P w)) = Some c)
  /\ (forall host, d = str "https://" ++ host -> client_domain built = host)
  /\ (~ occurs (str "https://") d -> client_domain built = d).
Proof.
  intros Hfetch Hjson Hdom Hd Htok built.
  assert (Hrun : exists r w' rest,
             initializeAndLoad P w = (r, w')
             /\ trace w' = trace w ++ [Fetch config_url; Await; ReadJson; Await;
                                       BuildClient built] ++ rest
             /\ count is_build rest = 0%nat
             /\ (forall c, buildClient P built = Ok c -> client w' = Some c)).
  { unfold initializeAndLoad. run_monad. cbn.
    rewrite Hfetch. cbn. rewrite Hjson. cbn. rewrite Hdom, Htok.
    destruct d as [ | ch d']; [ congruence | ]. cbn.
    fold (built_config (ch :: d') (storefrontAccessToken cfg)). fold built.
    destruct (buildClient P built) as [c | e]; cbn.
    - destruct (product_fetchAll P c) as [prods | e]; cbn.
      + destruct (map_throwing map_product prods) as [mapped | | e]; cbn;
          eexists _, _, _; (split; [ reflexivity | ]); cbn [trace client];
          rewrite <- ?List.app_assoc; cbn;
          (split; [ reflexivity | split; [ reflexivity | intros ? [= <-]; reflexivity ] ]).
      + eexists _, _, _; (split; [ reflexivity | ]); cbn [trace client];
          rewrite <- ?List.app_assoc; cbn;
          (split; [ reflexivity | split; [ reflexivity | intros ? [= <-]; reflexivity ] ]).
    - eexists _, _, _; (split; [ reflexivity | ]); cbn [trace client];
        rewrite <- ?List.app_assoc; cbn;
        (split; [ reflexivity | split; [ reflexivity | intros ? [=] ] ]). }
  destruct Hrun as (r & w' & rest & Hrun & Htrace & Hcount & Hclient).
  split; [ reflexivity | ].
  repeat split.
  - exists rest. split; [ | exact Hcount ].
    unfold events_of. rewrite Hrun. cbn [snd]. rewrite Htrace.
    apply drop_app_length.
  - intros c Hc. rewrite Hrun. cbn [snd]. auto.
  - intros host ->. apply JSFacts.String_replace_prefix.
  - intros Hno. now apply JSFacts.String_replace_absent.
Qed.

Lemma client_domain_https_removed_witness :
  domain (store_config "https://crush.myshopify.com")
  = VString (str "https://" ++ str "crush.myshopify.com")
  /\ client_domain (built_config (str "https://crush.myshopify.com")
                      (VString (str "token-123")))
     = str "crush.myshopify.com".
Proof.
  split; [ reflexivity | ].
  apply (client_domain_https_removed full_store initial_world
           {| json := Ok (store_config "https://crush.myshopify.com") |}
           (store_config "https://crush.myshopify.com")
           (str "https://crush.myshopify.com")
           eq_refl eq_refl eq_refl ltac:(discriminate) eq_refl).
  reflexivity.
Defined.

(** C10: a bootstrap that ends in ConfigError, whatever failed, leaves
    the catalog and the featured list empty as they initially are. *)
Theorem config_error_exposes_no_products (P : Platform) :
  let w' := snd (initializeAndLoad P initial_world) in
  configError w' = true ->
  products w' = [] /\ featured w' = [].
Proof.
  intros w' Herr.
  apply (bootstrap_failure_keeps_lists P initial_world eq_refl Herr).
Qed.

Lemma config_error_exposes_no_products_witness :
  configError (snd (initializeAndLoad malformed_store initial_world)) = true
  /\ products (snd (initializeAndLoad malformed_store initial_world)) = []
  /\ featured (snd (initializeAndLoad malformed_store initial_world)) = [].
Proof.
  split; [ reflexivity | ].
  apply (config_error_exposes_no_products malformed_store). reflexivity.
Defined.

End BootstrapFacts.

(** * Properties of the checkout initiator *)

Module CheckoutFacts.
Import App Scenarios.

Local Arguments str : simpl never.

Lemma checkout_run_success (P : Platform) (w : World) c vid qty created updated :
  client w = Some c ->
  checkout_create P c = Ok created ->
  checkout_addLineItems P c (checkout_id created)
    [ {| variantId := vid; quantity := default_qty qty |} ] = Ok updated ->
  startCheckout P vid qty w
  = (Normal tt,
     {| client := client w; products := products w; featured := featured w;
        loading := loading w; configError := configError w;
        trace := trace w ++
          [CheckoutCreate; Await;
           AddLineItems (checkout_id created)
             [ {| variantId := vid; quantity := default_qty qty |} ];
           Await; Navigate (webUrl updated)] |}).
Proof.
  intros Hc Hcreate Hadd.
  destruct w; cbn in Hc; subst.
  unfold startCheckout. run_monad. cbn.
  rewrite Hcreate. cbn. rewrite Hadd. same_world.
Qed.

Lemma checkout_run_create_rejected (P : Platform) (w : World) c vid qty e :
  client w = Some c ->
  checkout_create P c = Err e ->
  startCheckout P vid qty w
  = (Normal tt,
     {| client := client w; products := products w; featured := featured w;
        loading := loading w; configError := configError w;
        trace := trace w ++
          [CheckoutCreate; Await; ConsoleError [LogExn e]; Alert could_not_start] |}).
Proof.
  intros Hc Hcreate.
  destruct w; cbn in Hc; subst.
  unfold startCheckout. run_monad. cbn.
  rewrite Hcreate. same_world.
Qed.

Lemma checkout_run_add_rejected (P : Platform) (w : World) c vid qty created e :
  client w = Some c ->
  checkout_create P c = Ok created ->
  checkout_addLineItems P c (checkout_id created)
    [ {| variantId := vid; quantity := default_qty qty |} ] = Err e ->
  startCheckout P vid qty w
  = (Normal tt,
     {| client := client w; products := products w; featured := featured w;
        loading := loading w; configError := configError w;
        trace := trace w ++
          [CheckoutCreate; Await;
           AddLineItems (checkout_id created)
             [ {| variantId := vid; quantity := default_qty qty |} ];
           Await; ConsoleError [LogExn e]; Alert could_not_start] |}).
Proof.
  intros Hc Hcreate Hadd.
  destruct w; cbn in Hc; subst.
  unfold startCheckout. run_monad. cbn.
  rewrite Hcreate. cbn. rewrite Hadd. same_world.
Qed.

Lemma checkout_run_no_client (P : Platform) (w : World) vid qty :
  client w = None ->
  startCheckout P vid qty w
  = (Normal tt,
     {| client := client w; products := products w; featured := featured w;
        loading := loading w; configError := configError w;
        trace := trace w ++ [Alert (str "Shopify client not initialized")] |}).
Proof.
  intros Hc. destruct w; cbn in Hc; subst.
  unfold startCheckout. run_monad. same_world.
Qed.

(** C4: with a client, quantity 1 (given or by default) and a platform
    whose two operations succeed, the call makes exactly one
    session-create call, then exactly one line-item-add call for that
    session carrying the variant id with quantity 1, and then navigates to
    the web URL of the session the second call returned. *)
Theorem checkout_success (P : Platform) (w : World) c vid qty created updated :
  client w = Some c ->
  default_qty qty = 1%Z ->
  checkout_create P c = Ok created ->
  checkout_addLineItems P c (checkout_id created)
    [ {| variantId := vid; quantity := 1 |} ] = Ok updated ->
  let evs := events_of (startCheckout P vid qty) w in
  fst (startCheckout P vid qty w) = Normal tt
  /\ evs = [CheckoutCreate; Await;
            AddLineItems (checkout_id created) [ {| variantId := vid; quantity := 1 |} ];
            Await; Navigate (webUrl updated)]
  /\ count is_create evs = 1%nat
  /\ count is_add evs = 1%nat
  /\ count is_navigate evs = 1%nat.
Proof.
  intros Hc Hqty Hcreate Hadd evs. subst evs. unfold events_of.
  rewrite <- Hqty in Hadd.
  rewrite (checkout_run_success P w c vid qty created updated Hc Hcreate Hadd).
  cbn [fst snd trace]. rewrite drop_app_length, Hqty.
  repeat split.
Qed.

Lemma checkout_success_witness :
  client ready_world = Some the_client
  /\ default_qty None = 1%Z
  /\ events_of (startCheckout full_store (str "v1") None) ready_world
     = [CheckoutCreate; Await;
        AddLineItems (str "co-1") [ {| variantId := str "v1"; quantity := 1 |} ];
        Await; Navigate (str "https://crush.myshopify.com/checkouts/co-1")].
Proof.
  split; [ reflexivity | split; [ reflexivity | ] ].
  apply (checkout_success full_store ready_world the_client (str "v1") None session session
           eq_refl eq_refl eq_refl eq_refl).
Defined.

(** C5: without a client the call performs no network call at all and
    raises the notification before any suspension point, that is,
    synchronously; nothing else happens. *)
Theorem checkout_without_client (P : Platform) (w : World) vid qty :
  client w = None ->
  let evs := events_of (startCheckout P vid qty) w in
  fst (startCheckout P vid qty w) = Normal tt
  /\ evs = [Alert (str "Shopify client not initialized")]
  /\ count is_network evs = 0%nat
  /\ count is_await evs = 0%nat.
Proof.
  intros Hc evs. subst evs. unfold events_of.
  rewrite (checkout_run_no_client P w vid qty Hc).
  cbn [fst snd trace]. rewrite drop_app_length.
  repeat split.
Qed.

Lemma checkout_without_client_witness :
  client initial_world = None
  /\ events_of (startCheckout full_store (str "v1") None) initial_world
     = [Alert (str "Shopify client not initialized")].
Proof.
  split; [ reflexivity | ].
  apply (checkout_without_client full_store initial_world (str "v1") None eq_refl).
Defined.

(** C6: when the session-create call or the line-item-add call rejects,
    the call does not navigate, logs the cause and then raises the
    notification, and repeats nothing: one session-create call and at most
    one line-item-add call were made. *)
Theorem checkout_failure (P : Platform) (w : World) c vid qty e :
  client w = Some c ->
  (checkout_create P c = Err e
   \/ exists created,
        checkout_create P c = Ok created
        /\ checkout_addLineItems P c (checkout_id created)
             [ {| variantId := vid; quantity := default_qty qty |} ] = Err e) ->
  let evs := events_of (startCheckout P vid qty) w in
  fst (startCheckout P vid qty w) = Normal tt
  /\ count is_navigate evs = 0%nat
  /\ (exists calls, evs = calls ++ [ConsoleError [LogExn e]; Alert could_not_start])
  /\ count is_create evs = 1%nat
  /\ (count is_add evs <= 1)%nat.
Proof.
  intros Hc [Hcreate | (created & Hcreate & Hadd)] evs; subst evs; unfold events_of.
  - rewrite (checkout_run_create_rejected P w c vid qty e Hc Hcreate).
    cbn [fst snd trace]. rewrite drop_app_length.
    repeat split; [ | cbn; lia ].
    now exists [CheckoutCreate; Await].
  - rewrite (checkout_run_add_rejected P w c vid qty created e Hc Hcreate Hadd).
    cbn [fst snd trace]. rewrite drop_app_length.
    repeat split; [ | cbn; lia ].
    now exists [CheckoutCreate; Await;
                AddLineItems (checkout_id created)
                  [ {| variantId := vid; quantity := default_qty qty |} ]; Await].
Qed.

Lemma checkout_failure_witness :
  checkout_create create_rejecting the_client = Err (Rejection (str "network error"))
  /\ count is_navigate
       (events_of (startCheckout create_rejecting (str "v1") None) ready_world) = 0%nat.
Proof.
  split; [ reflexivity | ].
  apply (checkout_failure create_rejecting ready_world the_client (str "v1") None
           (Rejection (str "network error")) eq_refl (or_introl eq_refl)).
Defined.

(** A rejected line-item-add leaves the created session behind. *)
Example add_rejected_trace :
  events_of (startCheckout add_rejecting (str "v1") None) ready_world
  = [CheckoutCreate; Await;
     AddLineItems (str "co-1") [ {| variantId := str "v1"; quantity := 1 |} ]; Await;
     ConsoleError [LogExn (Rejection (str "invalid variant"))];
     Alert could_not_start].
Proof. reflexivity. Qed.

End CheckoutFacts.

(** * Properties of the configuration endpoint *)

Module ServerFacts.
Import Server Scenarios.

Lemma env_or_empty (env : Env) (name : jsstring) :
  or_else (env_get env name) (VString []) = VString (default [] (env !! name)).
Proof.
  unfold env_get. destruct (env !! name) as [ [ | c s] | ]; reflexivity.
Qed.

(** C7: whatever the environment, GET /api/config/shopify is answered
    with status 200 and a document of exactly the two fields [domain] and
    [storefrontAccessToken], each the value of its variable when that is
    set and the empty string when it is not; nothing is validated and
    there is no other outcome. *)
Theorem shopify_config_response (env : Env) :
  serve (registerRoutes []) env get_shopify_config
  = Some {| statusCode := 200;
            body := Some [ (str "domain", VString (default [] (env !! STORE_DOMAIN)));
                           (str "storefrontAccessToken",
                            VString (default [] (env !! ACCESS_TOKEN))) ] |}.
Proof.
  unfold registerRoutes, app_get. cbn [app serve route_method route_path route_handler].
  replace (jsstring_eqb (str "GET") (method get_shopify_config)
           && jsstring_eqb (str "/api/config/shopify") (path get_shopify_config))
    with true by (vm_compute; reflexivity).
  unfold shopify_config, res_json. cbn [statusCode fresh_res].
  now rewrite !env_or_empty.
Qed.

(** With both variables unset the document has two empty fields and the
    client's bootstrap ends in ConfigError. *)
Example unset_environment_end_to_end :
  serve (registerRoutes []) (∅ : Env) get_shopify_config
  = Some {| statusCode := 200;
            body := Some [ (str "domain", VString []);
                           (str "storefrontAccessToken", VString []) ] |}
  /\ App.configError (snd (App.initializeAndLoad (served_by ∅) App.initial_world)) = true
  /\ events_of (App.initializeAndLoad (served_by ∅)) App.initial_world
     = [App.Fetch App.config_url; App.Await; App.ReadJson; App.Await].
Proof. repeat split. Qed.

End ServerFacts.

(** * Further properties of the catalog bootstrap *)

Module BootstrapMore.
Import App Scenarios.

Local Arguments str : simpl never.
Local Arguments config_url : simpl never.
Local Arguments String_replace : simpl never.

Lemma events_of_app {A} (m : M A) (w : World) (evs : list event) :
  trace (snd (m w)) = trace w ++ evs -> events_of m w = evs.
Proof. intros H. unfold events_of. rewrite H. apply drop_app_length. Qed.

Lemma map_product_no_return (p : RawProduct) : map_product p <> Return.
Proof.
  unfold map_product, map_property.
  destruct (raw_images p), (raw_variants p); discriminate.
Qed.

Lemma map_throwing_no_return {A B} (f : A -> completion B) (xs : list A) :
  (forall x, f x <> Return) -> map_throwing f xs <> Return.
Proof.
  intros Hf. induction xs as [ | x xs IH]; cbn; [ discriminate | ].
  specialize (Hf x). destruct (f x); try congruence.
  destruct (map_throwing f xs); congruence.
Qed.

Lemma catalog_no_return (prods : list RawProduct) :
  map_throwing map_product prods <> Return.
Proof. apply map_throwing_no_return, map_product_no_return. Qed.

(** Case analysis over the paths of [initializeAndLoad]: every call
    outcome is split, and [tac] is run on each path. *)
Ltac bootstrap_paths P tac :=
  unfold initializeAndLoad; run_monad; cbn;
  destruct (fetch P config_url) as [?resp | ?e]; cbn; [ | tac ];
  match goal with |- context [json ?r] => destruct (json r) as [?cfg | ?e] end;
  cbn; [ | tac ];
  match goal with
  | |- context [ToBoolean (domain ?c)] =>
    destruct (ToBoolean (domain c)) eqn:?Hdomain; cbn; [ | tac ];
    destruct (ToBoolean (storefrontAccessToken c)) eqn:?Htoken; cbn; [ | tac ];
    destruct (domain c) as [ | | ?b | ?n | ?d ] eqn:?Hdom; cbn;
    [ tac | tac | tac | tac | ]
  end;
  match goal with
  | |- context [buildClient P ?c] => destruct (buildClient P c) as [?h | ?e] eqn:?Hbuild
  end; cbn; [ | tac ];
  match goal with
  | |- context [product_fetchAll P ?h] =>
    destruct (product_fetchAll P h) as [?prods | ?e] eqn:?Hall
  end; cbn; [ | tac ];
  match goal with
  | |- context [map_throwing map_product ?ps] =>
    pose proof (catalog_no_return ps);
    destruct (map_throwing map_product ps) as [?mapped | | ?e] eqn:?Hmap
  end; cbn; [ tac | congruence | tac ].

(** X1: the bootstrap always settles: whatever the collaborators do, the
    call completes without an exception escaping and with the loading flag
    cleared. *)
Theorem bootstrap_always_settles (P : Platform) (w : World) :
  fst (initializeAndLoad P w) = Normal tt
  /\ loading (snd (initializeAndLoad P w)) = false.
Proof. bootstrap_paths P ltac:(split; reflexivity). Qed.

Lemma bootstrap_fetch_rejected (P : Platform) (w : World) e :
  fetch P config_url = Err e ->
  initializeAndLoad P w
  = (Normal tt, failed w (client w) [Fetch config_url; Await; shopify_fetch_error e]).
Proof.
  intros Hfetch. unfold initializeAndLoad, failed. run_monad. cbn.
  rewrite Hfetch. same_world.
Qed.

Lemma bootstrap_json_rejected (P : Platform) (w : World) resp e :
  fetch P config_url = Ok resp ->
  json resp = Err e ->
  initializeAndLoad P w
  = (Normal tt,
     failed w (client w) [Fetch config_url; Await; ReadJson; Await; shopify_fetch_error e]).
Proof.
  intros Hfetch Hjson. unfold initializeAndLoad, failed. run_monad. cbn.
  rewrite Hfetch. cbn. rewrite Hjson. same_world.
Qed.

Lemma bootstrap_replace_throws (P : Platform) (w : World) resp cfg e :
  fetch P config_url = Ok resp ->
  json resp = Ok cfg ->
  ToBoolean (domain cfg) = true ->
  ToBoolean (storefrontAccessToken cfg) = true ->
  call_replace (domain cfg) (str "https://") [] = Throw e ->
  initializeAndLoad P w
  = (Normal tt,
     failed w (client w) [Fetch config_url; Await; ReadJson; Await; shopify_fetch_error e]).
Proof.
  intros Hfetch Hjson Hdom Htok Hrep. unfold initializeAndLoad, failed. run_monad. cbn.
  rewrite Hfetch. cbn. rewrite Hjson. cbn. rewrite Hdom, Htok. cbn.
  rewrite Hrep. same_world.
Qed.

Lemma bootstrap_catalog_rejected (P : Platform) (w : World) resp cfg d c e :
  fetch P config_url = Ok resp ->
  json resp = Ok cfg ->
  domain cfg = VString d -> d <> [] ->
  ToBoolean (storefrontAccessToken cfg) = true ->
  buildClient P (built_config d (storefrontAccessToken cfg)) = Ok c ->
  product_fetchAll P c = Err e ->
  initializeAndLoad P w
  = (Normal tt,
     failed w (Some c)
       [Fetch config_url; Await; ReadJson; Await;
        BuildClient (built_config d (storefrontAccessToken cfg));
        FetchAll; Await; shopify_fetch_error e]).
Proof.
  intros Hfetch Hjson Hdom Hd Htok Hbuild Hall.
  unfold initializeAndLoad, failed. run_monad. cbn.
  rewrite Hfetch. cbn. rewrite Hjson. cbn. rewrite Hdom, Htok.
  destruct d as [ | ch d']; [ congruence | ].
  cbn. unfold built_config in Hbuild. rewrite Hbuild. cbn. rewrite Hall. same_world.
Qed.

Lemma bootstrap_mapping_throws (P : Platform) (w : World) resp cfg d c prods e :
  fetch P config_url = Ok resp ->
  json resp = Ok cfg ->
  domain cfg = VString d -> d <> [] ->
  ToBoolean (storefrontAccessToken cfg) = true ->
  buildClient P (built_config d (storefrontAccessToken cfg)) = Ok c ->
  product_fetchAll P c = Ok prods ->
  map_throwing map_product prods = Throw e ->
  initializeAndLoad P w
  = (Normal tt,
     failed w (Some c)
       [Fetch config_url; Await; ReadJson; Await;
        BuildClient (built_config d (storefrontAccessToken cfg));
        FetchAll; Await; shopify_fetch_error e]).
Proof.
  intros Hfetch Hjson Hdom Hd Htok Hbuild Hall Hmap.
  unfold initializeAndLoad, failed. run_monad. cbn.
  rewrite Hfetch. cbn. rewrite Hjson. cbn. rewrite Hdom, Htok.
  destruct d as [ | ch d']; [ congruence | ].
  cbn. unfold built_config in Hbuild. rewrite Hbuild. cbn. rewrite Hall. cbn.
  rewrite Hmap. same_world.
Qed.

Lemma events_of_failed {A} (m : M A) (w : World) r c evs :
  m w = (r, failed w c evs) -> events_of m w = evs.
Proof. intros H. apply events_of_app. now rewrite H. Qed.


Lemma bootstrap_builds_client (P : Platform) (w : World) resp cfg d :
  fetch P config_url = Ok resp ->
  json resp = Ok cfg ->
  domain cfg = VString d -> d <> [] ->
  ToBoolean (storefrontAccessToken cfg) = true ->
  exists rest,
    events_of (initializeAndLoad P) w
    = [Fetch config_url; Await; ReadJson; Await;
       BuildClient (built_config d (storefrontAccessToken cfg))] ++ rest.
Proof.
  intros Hfetch Hjson Hdom Hd Htok. unfold events_of.
  unfold initializeAndLoad. run_monad. cbn.
  rewrite Hfetch. cbn. rewrite Hjson. cbn. rewrite Hdom, Htok.
  destruct d as [ | ch d']; [ congruence | ]. cbn.
  fold (built_config (ch :: d') (storefrontAccessToken cfg)).
  destruct (buildClient P _) as [c | e]; cbn.
  - destruct (product_fetchAll P c) as [prods | e]; cbn.
    + destruct (map_throwing map_product prods) as [mapped | | e]; cbn;
        rewrite <- ?List.app_assoc; rewrite drop_app_length; eexists; reflexivity.
    + rewrite <- ?List.app_assoc; rewrite drop_app_length; eexists; reflexivity.
  - rewrite <- ?List.app_assoc; rewrite drop_app_length; eexists; reflexivity.
Qed.

(** X2: a bootstrap from the initial state that does not end in
    ConfigError has a client, and its catalog is the mapped result of that
    client's catalog fetch, with the first three products featured. *)
Theorem bootstrap_ready_means_loaded (P : Platform) :
  configError (snd (initializeAndLoad P initial_world)) = false ->
  exists c prods mapped,
    client (snd (initializeAndLoad P initial_world)) = Some c
    /\ product_fetchAll P c = Ok prods
    /\ map_throwing map_product prods = Normal mapped
    /\ products (snd (initializeAndLoad P initial_world)) = mapped
    /\ featured (snd (initializeAndLoad P initial_world)) = take 3 mapped.
Proof.
  bootstrap_paths P
    ltac:(first [ intros Habs; discriminate Habs
                | intros _; do 3 eexists; repeat split; eassumption ]).
Qed.

Lemma bootstrap_ready_means_loaded_witness :
  configError (snd (initializeAndLoad full_store initial_world)) = false
  /\ exists c prods mapped,
       client (snd (initializeAndLoad full_store initial_world)) = Some c
       /\ product_fetchAll full_store c = Ok prods
       /\ map_throwing map_product prods = Normal mapped
       /\ products (snd (initializeAndLoad full_store initial_world)) = mapped
       /\ featured (snd (initializeAndLoad full_store initial_world)) = take 3 mapped.
Proof.
  split; [ reflexivity | ].
  apply (bootstrap_ready_means_loaded full_store). reflexivity.
Defined.

(** X3: when fetching the configuration or reading its JSON body
    rejects, the cause is logged once under "Shopify fetch error", the
    bootstrap ends in ConfigError, and neither a client is built nor a
    catalog fetched; the client and both lists stay as they were. *)
Theorem config_fetch_failure (P : Platform) (w : World) e :
  (fetch P config_url = Err e
   \/ exists resp, fetch P config_url = Ok resp /\ json resp = Err e) ->
  let w' := snd (initializeAndLoad P w) in
  let evs := events_of (initializeAndLoad P) w in
  configError w' = true
  /\ client w' = client w
  /\ products w' = products w
  /\ featured w' = featured w
  /\ count is_build evs = 0%nat
  /\ count is_fetchAll evs = 0%nat
  /\ exists calls, evs = calls ++ [shopify_fetch_error e]
                   /\ count is_console_error calls = 0%nat.
Proof.
  intros [Hfetch | (resp & Hfetch & Hjson)] w' evs; subst w' evs.
  - pose proof (bootstrap_fetch_rejected P w e Hfetch) as Hrun.
    rewrite (events_of_failed _ _ _ _ _ Hrun), Hrun.
    repeat split. now exists [Fetch config_url; Await].
  - pose proof (bootstrap_json_rejected P w resp e Hfetch Hjson) as Hrun.
    rewrite (events_of_failed _ _ _ _ _ Hrun), Hrun.
    repeat split. now exists [Fetch config_url; Await; ReadJson; Await].
Qed.

Lemma config_fetch_failure_witness :
  fetch offline config_url = Err (Rejection (str "Failed to fetch"))
  /\ configError (snd (initializeAndLoad offline initial_world)) = true.
Proof.
  split; [ reflexivity | ].
  apply (config_fetch_failure offline initial_world (Rejection (str "Failed to fetch"))
           (or_introl eq_refl)).
Defined.

(** X4: when the catalog fetch rejects, the bootstrap ends in
    ConfigError with the cause logged, but the client built just before
    stays assigned; the lists are untouched. *)
Theorem catalog_fetch_failure_keeps_client (P : Platform) (w : World) resp cfg d c e :
  fetch P config_url = Ok resp ->
  json resp = Ok cfg ->
  domain cfg = VString d -> d <> [] ->
  ToBoolean (storefrontAccessToken cfg) = true ->
  buildClient P (built_config d (storefrontAccessToken cfg)) = Ok c ->
  product_fetchAll P c = Err e ->
  let w' := snd (initializeAndLoad P w) in
  configError w' = true
  /\ loading w' = false
  /\ client w' = Some c
  /\ products w' = products w
  /\ featured w' = featured w
  /\ events_of (initializeAndLoad P) w
     = [Fetch config_url; Await; ReadJson; Await;
        BuildClient (built_config d (storefrontAccessToken cfg));
        FetchAll; Await; shopify_fetch_error e].
Proof.
  intros Hfetch Hjson Hdom Hd Htok Hbuild Hall w'. subst w'.
  pose proof (bootstrap_catalog_rejected P w resp cfg d c e
                Hfetch Hjson Hdom Hd Htok Hbuild Hall) as Hrun.
  rewrite (events_of_failed _ _ _ _ _ Hrun), Hrun.
  repeat split.
Qed.

Lemma catalog_fetch_failure_keeps_client_witness :
  product_fetchAll catalog_down the_client = Err (Rejection (str "503"))
  /\ client (snd (initializeAndLoad catalog_down initial_world)) = Some the_client.
Proof.
  split; [ reflexivity | ].
  apply (catalog_fetch_failure_keeps_client catalog_down initial_world
           {| json := Ok (store_config "crush.myshopify.com") |}
           (store_config "crush.myshopify.com") (str "crush.myshopify.com")
           the_client (Rejection (str "503"))
           eq_refl eq_refl eq_refl ltac:(discriminate) eq_refl eq_refl eq_refl).
Defined.

Lemma map_product_well_formed (p : RawProduct) :
  well_formed p = true ->
  exists q, map_product p = Normal q
            /\ id q = raw_id p /\ title q = raw_title p
            /\ description q = raw_description p /\ handle q = raw_handle p
            /\ Some (images q) = option_map (map src) (raw_images p)
            /\ Some (variants q) = option_map (map map_variant) (raw_variants p).
Proof.
  unfold well_formed, map_product, map_property.
  destruct (raw_images p), (raw_variants p); try discriminate.
  intros _. eexists. repeat split.
Qed.

Lemma map_product_malformed (p : RawProduct) :
  well_formed p = false -> exists msg, map_product p = Throw (TypeError msg).
Proof.
  unfold well_formed, map_product, map_property.
  destruct (raw_images p), (raw_variants p); try discriminate; eauto.
Qed.

Lemma catalog_malformed_throws (prods : list RawProduct) :
  forallb well_formed prods = false ->
  exists msg, map_throwing map_product prods = Throw (TypeError msg).
Proof.
  induction prods as [ | p ps IH]; cbn; [ discriminate | ].
  destruct (well_formed p) eqn:Hp; cbn.
  - intros Hps. destruct (map_product_well_formed p Hp) as (q & -> & _).
    destruct (IH Hps) as [msg ->]. eauto.
  - intros _. destruct (map_product_malformed p Hp) as [msg ->]. eauto.
Qed.




(** X6: one record without images or variants fails the whole catalog:
    the bootstrap ends in ConfigError with a TypeError logged, and none of
    the other, well-formed records reaches the product lists. *)
Theorem malformed_record_fails_catalog (P : Platform) (w : World) resp cfg d c prods :
  fetch P config_url = Ok resp ->
  json resp = Ok cfg ->
  domain cfg = VString d -> d <> [] ->
  ToBoolean (storefrontAccessToken cfg) = true ->
  buildClient P (built_config d (storefrontAccessToken cfg)) = Ok c ->
  product_fetchAll P c = Ok prods ->
  forallb well_formed prods = false ->
  let w' := snd (initializeAndLoad P w) in
  configError w' = true
  /\ products w' = products w
  /\ featured w' = featured w
  /\ exists msg,
       events_of (initializeAndLoad P) w
       = [Fetch config_url; Await; ReadJson; Await;
          BuildClient (built_config d (storefrontAccessToken cfg));
          FetchAll; Await; shopify_fetch_error (TypeError msg)].
Proof.
  intros Hfetch Hjson Hdom Hd Htok Hbuild Hall Hwf w'. subst w'.
  destruct (catalog_malformed_throws prods Hwf) as [msg Hmap].
  pose proof (bootstrap_mapping_throws P w resp cfg d c prods _
                Hfetch Hjson Hdom Hd Htok Hbuild Hall Hmap) as Hrun.
  rewrite (events_of_failed _ _ _ _ _ Hrun), Hrun.
  repeat split. now exists msg.
Qed.

Lemma malformed_record_fails_catalog_witness :
  forallb well_formed [raw_tee "a" "19.5"; raw_malformed] = false
  /\ products (snd (initializeAndLoad malformed_store initial_world)) = [].
Proof.
  split; [ reflexivity | ].
  apply (malformed_record_fails_catalog malformed_store initial_world
           {| json := Ok (store_config "crush.myshopify.com") |}
           (store_config "crush.myshopify.com") (str "crush.myshopify.com")
           the_client [raw_tee "a" "19.5"; raw_malformed]
           eq_refl eq_refl eq_refl ltac:(discriminate) eq_refl eq_refl eq_refl eq_refl).
Defined.

(** X7: a domain that is truthy but not a string (a number or [true]
    in the JSON document) passes the emptiness check and then fails at
    [.replace]: the TypeError is logged, the bootstrap ends in ConfigError,
    and no client is built. *)
Theorem non_string_domain_is_config_error (P : Platform) (w : World) resp cfg :
  fetch P config_url = Ok resp ->
  json resp = Ok cfg ->
  ToBoolean (domain cfg) = true ->
  ToBoolean (storefrontAccessToken cfg) = true ->
  (forall d, domain cfg <> VString d) ->
  let w' := snd (initializeAndLoad P w) in
  configError w' = true
  /\ client w' = client w
  /\ products w' = products w
  /\ exists msg,
       events_of (initializeAndLoad P) w
       = [Fetch config_url; Await; ReadJson; Await; shopify_fetch_error (TypeError msg)].
Proof.
  intros Hfetch Hjson Hdom Htok Hnot w'. subst w'.
  assert (Hrep : exists msg,
             call_replace (domain cfg) (str "https://") [] = Throw (TypeError msg)).
  { destruct (domain cfg) as [ | | b | n | d]; cbn; eauto. now destruct (Hnot d). }
  destruct Hrep as [msg Hrep].
  pose proof (bootstrap_replace_throws P w resp cfg _ Hfetch Hjson Hdom Htok Hrep) as Hrun.
  rewrite (events_of_failed _ _ _ _ _ Hrun), Hrun.
  repeat split. now exists msg.
Qed.

Lemma non_string_domain_is_config_error_witness :
  ToBoolean (VBoolean true) = true
  /\ configError (snd (initializeAndLoad boolean_domain initial_world)) = true.
Proof.
  split; [ reflexivity | ].
  apply (non_string_domain_is_config_error boolean_domain initial_world
           {| json := Ok {| domain := VBoolean true;
                            storefrontAccessToken := VString (str "token-123") |} |}
           {| domain := VBoolean true; storefrontAccessToken := VString (str "token-123") |}
           eq_refl eq_refl eq_refl eq_refl).
  intros d. discriminate.
Defined.

(** X8: the bootstrap never clears the ConfigError flag: run again in
    a state that already has it, it ends with the flag still set. *)
Theorem config_error_is_never_cleared (P : Platform) (w : World) :
  configError w = true ->
  configError (snd (initializeAndLoad P w)) = true.
Proof.
  intros Hw. bootstrap_paths P ltac:(first [ reflexivity | exact Hw ]).
Qed.

Lemma config_error_is_never_cleared_witness :
  configError (failed initial_world None []) = true
  /\ configError (snd (initializeAndLoad full_store (failed initial_world None []))) = true.
Proof.
  split; [ reflexivity | ].
  apply (config_error_is_never_cleared full_store (failed initial_world None [])).
  reflexivity.
Defined.

(** X9: the bootstrap repeats nothing and stays within its own
    collaborators: one configuration fetch, at most one client
    construction, at most one catalog fetch, at most one log entry, and
    never an alert, a navigation or a checkout call. *)
Theorem bootstrap_effects_bounded (P : Platform) (w : World) :
  let evs := events_of (initializeAndLoad P) w in
  count is_fetch evs = 1%nat
  /\ (count is_build evs <= 1)%nat
  /\ (count is_fetchAll evs <= 1)%nat
  /\ (count is_console_error evs <= 1)%nat
  /\ count is_alert evs = 0%nat
  /\ count is_navigate evs = 0%nat
  /\ count is_create evs = 0%nat
  /\ count is_add evs = 0%nat.
Proof.
  unfold events_of.
  bootstrap_paths P
    ltac:(rewrite <- ?List.app_assoc; rewrite drop_app_length; cbn; repeat split; lia).
Qed.

End BootstrapMore.

(** * Further properties of the checkout initiator *)

Module CheckoutMore.
Import App Scenarios.

Local Arguments str : simpl never.
Local Arguments config_url : simpl never.
Local Arguments String_replace : simpl never.

(** Case analysis over the paths of [startCheckout]. *)
Ltac known_client w :=
  match goal with
  | H : App.client w = _ |- _ => rewrite ?H
  | _ => idtac
  end.

Ltac checkout_paths P w tac :=
  unfold startCheckout; run_monad; cbn;
  destruct (client w) as [?c | ] eqn:?Hclient; cbn; [ | known_client w; tac ];
  match goal with
  | |- context [checkout_create P ?c] =>
    destruct (checkout_create P c) as [?created | ?e] eqn:?Hcreate
  end; cbn; [ | known_client w; tac ];
  match goal with
  | |- context [checkout_addLineItems P ?c ?i ?l] =>
    destruct (checkout_addLineItems P c i l) as [?updated | ?e] eqn:?Hadd
  end; cbn; known_client w; tac.

(** X10: a checkout touches nothing but the trace: the client and the
    four state cells of the page are as before, and the effects already
    performed stay in place. *)
Theorem checkout_changes_no_state (P : Platform) (w : World) vid qty :
  let w' := snd (startCheckout P vid qty w) in
  client w' = client w
  /\ products w' = products w
  /\ featured w' = featured w
  /\ loading w' = loading w
  /\ configError w' = configError w
  /\ exists evs, trace w' = trace w ++ evs.
Proof.
  checkout_paths P w
    ltac:(repeat split; rewrite <- ?List.app_assoc; eexists; reflexivity).
Qed.

(** X11: every checkout call settles without an exception escaping and
    with exactly one user-visible outcome: either one navigation or one
    alert, never both and never neither; and it creates at most one
    session and adds line items at most once. *)
Theorem checkout_one_outcome (P : Platform) (w : World) vid qty :
  let evs := events_of (startCheckout P vid qty) w in
  fst (startCheckout P vid qty w) = Normal tt
  /\ (count is_navigate evs + count is_alert evs = 1)%nat
  /\ (count is_create evs <= 1)%nat
  /\ (count is_add evs <= count is_create evs)%nat.
Proof.
  unfold events_of.
  checkout_paths P w
    ltac:(rewrite <- ?List.app_assoc; rewrite drop_app_length; cbn; repeat split; lia).
Qed.

(** X12: a navigation happens only after both platform calls succeeded,
    and then it goes to the web URL returned by the line-item call made
    for the session just created. *)
Theorem checkout_navigates_only_on_success (P : Platform) (w : World) vid qty :
  count is_navigate (events_of (startCheckout P vid qty) w) <> 0%nat ->
  exists c created updated,
    client w = Some c
    /\ checkout_create P c = Ok created
    /\ checkout_addLineItems P c (checkout_id created)
         [ {| variantId := vid; quantity := default_qty qty |} ] = Ok updated
    /\ last (events_of (startCheckout P vid qty) w) = Some (Navigate (webUrl updated)).
Proof.
  unfold events_of.
  checkout_paths P w
    ltac:(rewrite <- ?List.app_assoc; rewrite drop_app_length; cbn;
          first [ intros Habs; now destruct Habs
                | intros _; do 3 eexists; repeat split; eassumption ]).
Qed.

Lemma checkout_navigates_only_on_success_witness :
  count is_navigate (events_of (startCheckout full_store (str "v1") None) ready_world) <> 0%nat
  /\ exists c created updated,
       client ready_world = Some c
       /\ checkout_create full_store c = Ok created
       /\ checkout_addLineItems full_store c (checkout_id created)
            [ {| variantId := str "v1"; quantity := default_qty None |} ] = Ok updated
       /\ last (events_of (startCheckout full_store (str "v1") None) ready_world)
          = Some (Navigate (webUrl updated)).
Proof.
  split; [ discriminate | ].
  apply (checkout_navigates_only_on_success full_store ready_world (str "v1") None).
  discriminate.
Defined.

(** X13: a quantity that is passed explicitly is forwarded as it is, zero
    and negative numbers included: the single line item of the one
    line-item call carries it unchanged. *)
Theorem checkout_quantity_forwarded (P : Platform) (w : World) c vid q created :
  client w = Some c ->
  checkout_create P c = Ok created ->
  let evs := events_of (startCheckout P vid (Some q)) w in
  evs !! 2%nat
  = Some (AddLineItems (checkout_id created) [ {| variantId := vid; quantity := q |} ])
  /\ count is_add evs = 1%nat.
Proof.
  intros Hc Hcreate. unfold events_of.
  destruct w as [cl ps fs ld ce tr]. cbn in Hc. subst cl.
  unfold startCheckout. run_monad. cbn. rewrite Hcreate. cbn.
  match goal with
  | |- context [checkout_addLineItems P c ?i ?l] =>
    destruct (checkout_addLineItems P c i l) as [updated | e]
  end; cbn; rewrite <- ?List.app_assoc; rewrite drop_app_length; split; reflexivity.
Qed.

Lemma checkout_quantity_forwarded_witness :
  client ready_world = Some the_client
  /\ events_of (startCheckout full_store (str "v1") (Some (-3)%Z)) ready_world !! 2%nat
     = Some (AddLineItems (str "co-1") [ {| variantId := str "v1"; quantity := -3 |} ]).
Proof.
  split; [ reflexivity | ].
  apply (checkout_quantity_forwarded full_store ready_world the_client (str "v1") (-3)%Z
           session eq_refl eq_refl).
Defined.

(** X14: the button of a product without variants throws a TypeError
    when clicked, before [startCheckout] is entered: no effect is
    performed and the state is unchanged, although the product's card is
    rendered with that button. *)
Theorem buy_click_without_variants (P : Platform) (w : World) (p : Product) :
  variants p = [] ->
  (exists msg, buy_click P p w = (Throw (TypeError msg), w))
  /\ events_of (buy_click P p) w = []
  /\ exists card, render_card (str "card-product-") p = Normal (CardElement card).
Proof.
  intros Hv. unfold events_of, buy_click. rewrite Hv. cbn.
  repeat split.
  - eexists. reflexivity.
  - apply drop_all.
  - unfold render_card, render_price.
    destruct (PriceFacts.formatPrice_normal (first_variant_amount p)) as [shown ->].
    eexists. reflexivity.
Qed.

Lemma buy_click_without_variants_witness :
  variants hoodie_without_variants = []
  /\ events_of (buy_click full_store hoodie_without_variants) ready_world = [].
Proof.
  split; [ reflexivity | ].
  apply (buy_click_without_variants full_store ready_world hoodie_without_variants).
  reflexivity.
Defined.

(** X15: the button of a product with variants checks out its first
    variant with quantity 1, whatever other variants the product has. *)
Theorem buy_click_first_variant (P : Platform) (w : World) (p : Product) v others c created :
  variants p = v :: others ->
  client w = Some c ->
  checkout_create P c = Ok created ->
  let evs := events_of (buy_click P p) w in
  evs !! 2%nat
  = Some (AddLineItems (checkout_id created)
            [ {| variantId := variant_id v; quantity := 1 |} ])
  /\ count is_add evs = 1%nat.
Proof.
  intros Hv Hc Hcreate. unfold events_of, buy_click. rewrite Hv. cbn [lookup list_lookup].
  destruct w as [cl ps fs ld ce tr]. cbn in Hc. subst cl.
  unfold startCheckout. run_monad. cbn. rewrite Hcreate. cbn.
  match goal with
  | |- context [checkout_addLineItems P c ?i ?l] =>
    destruct (checkout_addLineItems P c i l) as [updated | e]
  end; cbn; rewrite <- ?List.app_assoc; rewrite drop_app_length; split; reflexivity.
Qed.

Lemma buy_click_first_variant_witness :
  variants two_sizes = [small_size; large_size]
  /\ events_of (buy_click full_store two_sizes) ready_world !! 2%nat
     = Some (AddLineItems (str "co-1") [ {| variantId := str "v-small"; quantity := 1 |} ]).
Proof.
  split; [ reflexivity | ].
  apply (buy_click_first_variant full_store ready_world two_sizes small_size [large_size]
           the_client session eq_refl eq_refl eq_refl).
Defined.

(** X16: after a bootstrap that found the domain or the token missing,
    a checkout does nothing but raise the "client not initialized" alert. *)
Theorem checkout_after_missing_config (P : Platform) resp cfg vid qty :
  fetch P config_url = Ok resp ->
  json resp = Ok cfg ->
  ToBoolean (domain cfg) = false \/ ToBoolean (storefrontAccessToken cfg) = false ->
  let w' := snd (initializeAndLoad P initial_world) in
  events_of (startCheckout P vid qty) w' = [Alert (str "Shopify client not initialized")]
  /\ count is_network (events_of (startCheckout P vid qty) w') = 0%nat.
Proof.
  intros Hfetch Hjson Hfalsy w'. subst w'.
  rewrite (BootstrapFacts.bootstrap_config_falsy P initial_world resp cfg Hfetch Hjson Hfalsy).
  cbn [snd]. unfold events_of.
  rewrite CheckoutFacts.checkout_run_no_client by reflexivity.
  cbn [snd trace]. rewrite drop_app_length. split; reflexivity.
Qed.

Lemma checkout_after_missing_config_witness :
  ToBoolean (domain {| domain := VString []; storefrontAccessToken := VString (str "token-123") |})
  = false
  /\ events_of (startCheckout unconfigured (str "v1") None)
       (snd (initializeAndLoad unconfigured initial_world))
     = [Alert (str "Shopify client not initialized")].
Proof.
  split; [ reflexivity | ].
  apply (checkout_after_missing_config unconfigured
           {| json := Ok {| domain := VString [];
                            storefrontAccessToken := VString (str "token-123") |} |}
           {| domain := VString []; storefrontAccessToken := VString (str "token-123") |}
           (str "v1") None eq_refl eq_refl (or_introl eq_refl)).
Defined.

(** X17: bootstrap and checkout in sequence: after a successful
    bootstrap, a checkout whose platform calls succeed runs on the client
    that the bootstrap built, and the whole sequence performs the seven
    bootstrap effects followed by the five checkout effects. *)
Theorem bootstrap_then_checkout (P : Platform) resp cfg d c prods mapped vid qty
    created updated :
  fetch P config_url = Ok resp ->
  json resp = Ok cfg ->
  domain cfg = VString d -> d <> [] ->
  ToBoolean (storefrontAccessToken cfg) = true ->
  buildClient P (built_config d (storefrontAccessToken cfg)) = Ok c ->
  product_fetchAll P c = Ok prods ->
  map_throwing map_product prods = Normal mapped ->
  checkout_create P c = Ok created ->
  checkout_addLineItems P c (checkout_id created)
    [ {| variantId := vid; quantity := default_qty qty |} ] = Ok updated ->
  events_of (initializeAndLoad P ;; startCheckout P vid qty) initial_world
  = [Fetch config_url; Await; ReadJson; Await;
     BuildClient (built_config d (storefrontAccessToken cfg)); FetchAll; Await]
    ++ [CheckoutCreate; Await;
        AddLineItems (checkout_id created)
          [ {| variantId := vid; quantity := default_qty qty |} ];
        Await; Navigate (webUrl updated)].
Proof.
  intros Hfetch Hjson Hdom Hd Htok Hbuild Hall Hmap Hcreate Hadd.
  unfold events_of, bind at 1.
  rewrite (BootstrapFacts.bootstrap_success P initial_world _ _ _ _ _ _
             Hfetch Hjson Hdom Hd Htok Hbuild Hall Hmap).
  match goal with
  | |- context [startCheckout P vid qty ?w1] =>
    rewrite (CheckoutFacts.checkout_run_success P w1 c vid qty created updated
               eq_refl Hcreate Hadd)
  end.
  reflexivity.
Qed.

Lemma bootstrap_then_checkout_witness :
  product_fetchAll empty_store the_client = Ok []
  /\ last (events_of (initializeAndLoad empty_store ;; startCheckout empty_store (str "v1") None)
             initial_world)
     = Some (Navigate (str "https://crush.myshopify.com/checkouts/co-1")).
Proof.
  split; [ reflexivity | ].
  rewrite (bootstrap_then_checkout empty_store
             {| json := Ok (store_config "crush.myshopify.com") |}
             (store_config "crush.myshopify.com") (str "crush.myshopify.com")
             the_client [] [] (str "v1") None session session
             eq_refl eq_refl eq_refl ltac:(discriminate) eq_refl eq_refl eq_refl eq_refl
             eq_refl eq_refl).
  reflexivity.
Defined.

End CheckoutMore.

(** * Properties of rendering *)

Module RenderFacts.
Import App Scenarios.

Local Arguments str : simpl never.

Lemma formatPrice_dollar (v : value) :
  exists fixed, formatPrice v = Normal (str "$" ++ fixed).
Proof.
  unfold formatPrice.
  destruct (PriceFacts.toFixed_two_normal
              (parseFloat (ToString (or_else v (VNumber pos_zero))))) as [fixed ->].
  eauto.
Qed.

Lemma first_image_nonempty (p : Product) : first_image p <> [].
Proof.
  unfold first_image. destruct (images p !! 0%nat) as [ [ | c s] | ]; discriminate.
Qed.

Lemma render_card_shows (testid_prefix : jsstring) (p : Product) :
  exists el, render_card testid_prefix p = Normal el /\ shows testid_prefix p el.
Proof.
  unfold render_card, render_price.
  destruct (formatPrice_dollar (first_variant_amount p)) as [fixed ->].
  eexists. split; [ reflexivity | ].
  eexists _, fixed. repeat split.
Qed.

Lemma render_cards_show (testid_prefix : jsstring) (ps : list Product) :
  exists els,
    map_throwing (render_card testid_prefix) ps = Normal els
    /\ Forall2 (shows testid_prefix) ps els.
Proof.
  induction ps as [ | p ps (els & Hels & Hall)]; cbn.
  - exists []. split; [ reflexivity | constructor ].
  - destruct (render_card_shows testid_prefix p) as (el & -> & Hel).
    rewrite Hels. exists (el :: els). split; [ reflexivity | now constructor ].
Qed.

Lemma shows_testids (testid_prefix : jsstring) (ps : list Product) (els : list element) :
  Forall2 (shows testid_prefix) ps els ->
  map element_testid els = map (fun p => testid_prefix ++ id p) ps
  /\ forallb is_card els = true
  /\ length els = length ps.
Proof.
  induction 1 as [ | p el ps els (c & fixed & -> & Hid & _) _ (IH1 & IH2 & IH3)]; cbn.
  - repeat split.
  - now rewrite Hid, IH1, IH2, IH3.
Qed.

Lemma cards_hold_no_indicator (els : list element) (t : jsstring) :
  forallb is_card els = true -> ~ In (Indicator t) els.
Proof.
  induction els as [ | el els IH]; cbn; [ tauto | ].
  intros H. apply andb_true_iff in H as [Hel Hels].
  intros [-> | Hin]; [ discriminate | now apply IH ].
Qed.

(** X18: every product yields a card, whatever its images and variants:
    rendering a card never throws, the card carries the test id built
    from the product id, the product's title, an image source that is
    never empty (the placeholder stands in for a missing or empty first
    image) and a price that starts with "$". *)
Theorem card_always_renders (testid_prefix : jsstring) (p : Product) :
  exists c fixed,
    render_card testid_prefix p = Normal (CardElement c)
    /\ testid c = testid_prefix ++ id p
    /\ card_title c = title p
    /\ img_src c <> []
    /\ (images p !! 0%nat = None \/ images p !! 0%nat = Some [] ->
        img_src c = str "/placeholder.png")
    /\ (forall u, images p !! 0%nat = Some u -> u <> [] -> img_src c = u)
    /\ card_price c = str "$" ++ fixed.
Proof.
  destruct (render_card_shows testid_prefix p)
    as (el & Hel & c & fixed & -> & Hid & Himg & Htitle & Hprice).
  exists c, fixed. rewrite Himg. repeat split; trivial.
  - apply first_image_nonempty.
  - unfold first_image, jsstring. intros [-> | ->]; reflexivity.
  - unfold first_image, jsstring. intros u -> Hu.
    destruct u; [ congruence | reflexivity ].
Qed.

Lemma card_always_renders_witness :
  images hoodie_without_variants !! 0%nat = None
  /\ exists c fixed,
       render_card (str "card-product-") hoodie_without_variants = Normal (CardElement c)
       /\ testid c = str "card-product-" ++ id hoodie_without_variants
       /\ card_title c = title hoodie_without_variants
       /\ img_src c <> []
       /\ (images hoodie_without_variants !! 0%nat = None
           \/ images hoodie_without_variants !! 0%nat = Some [] ->
           img_src c = str "/placeholder.png")
       /\ (forall u, images hoodie_without_variants !! 0%nat = Some u -> u <> [] ->
                     img_src c = u)
       /\ card_price c = str "$" ++ fixed.
Proof.
  split; [ reflexivity | ].
  apply (card_always_renders (str "card-product-") hoodie_without_variants).
Defined.

(** X19: rendering never throws, in any state of the page. *)
Theorem render_never_throws (w : World) : exists v, render w = Normal v.
Proof.
  unfold render. destruct (configError w); [ eauto | ].
  destruct (render_cards_show (str "card-product-") (products w)) as (cards & -> & _).
  destruct (loading w); [ eauto | ].
  destruct (render_cards_show (str "card-featured-") (featured w)) as (fcards & -> & _).
  eauto.
Qed.

(** X20: once loading is over and there is no configuration error, the
    page shows one featured card per featured product and, for a
    non-empty catalog, one product card per product, each under the test
    id built from its product id and in list order; an empty catalog shows
    the "no-products" indicator alone. *)
Theorem ready_page_lists_products (w : World) :
  configError w = false ->
  loading w = false ->
  exists featuredGrid grid,
    render w = Normal (StorePage featuredGrid grid)
    /\ map element_testid featuredGrid
       = map (fun p => str "card-featured-" ++ id p) (featured w)
    /\ forallb is_card featuredGrid = true
    /\ (products w <> [] ->
        map element_testid grid = map (fun p => str "card-product-" ++ id p) (products w)
        /\ forallb is_card grid = true)
    /\ (products w = [] -> grid = [Indicator (str "no-products")]).
Proof.
  intros Herr Hload. unfold render. rewrite Herr, Hload.
  destruct (render_cards_show (str "card-featured-") (featured w)) as (fcards & -> & Hf).
  destruct (render_cards_show (str "card-product-") (products w)) as (cards & -> & Hc).
  destruct (shows_testids _ _ _ Hf) as (Hfid & Hfcard & _).
  destruct (shows_testids _ _ _ Hc) as (Hcid & Hccard & Hclen).
  eexists _, _. split; [ reflexivity | ].
  repeat split; trivial.
  - destruct (products w) as [ | p ps]; [ congruence | ]. cbn. exact Hcid.
  - destruct (products w) as [ | p ps]; [ congruence | ]. cbn. exact Hccard.
  - intros Hnone. rewrite Hnone in *. destruct cards; [ reflexivity | discriminate ].
Qed.

Lemma ready_page_lists_products_witness :
  configError ready_world = false
  /\ loading ready_world = false
  /\ exists featuredGrid grid,
       render ready_world = Normal (StorePage featuredGrid grid)
       /\ map element_testid featuredGrid
          = map (fun p => str "card-featured-" ++ id p) (featured ready_world)
       /\ forallb is_card featuredGrid = true
       /\ (products ready_world <> [] ->
           map element_testid grid
           = map (fun p => str "card-product-" ++ id p) (products ready_world)
           /\ forallb is_card grid = true)
       /\ (products ready_world = [] -> grid = [Indicator (str "no-products")]).
Proof.
  split; [ reflexivity | split; [ reflexivity | ] ].
  apply (ready_page_lists_products ready_world); reflexivity.
Defined.

(** X21: the "no-products" indicator is in the shop grid exactly when
    loading is over and the catalog is empty. *)
Theorem no_products_indicator_iff (w : World) featuredGrid grid :
  render w = Normal (StorePage featuredGrid grid) ->
  (In (Indicator (str "no-products")) grid <-> loading w = false /\ products w = []).
Proof.
  unfold render. destruct (configError w); [ discriminate | ].
  destruct (render_cards_show (str "card-product-") (products w)) as (cards & -> & Hc).
  destruct (shows_testids _ _ _ Hc) as (_ & Hcard & Hlen).
  pose proof (cards_hold_no_indicator cards (str "no-products") Hcard) as Hnot.
  destruct (loading w).
  - intros [= _ <-]. cbn. split; [ | intros [? _]; discriminate ].
    intros [Habs | Hin]; [ discriminate | tauto ].
  - destruct (render_cards_show (str "card-featured-") (featured w)) as (fcards & -> & _).
    intros [= _ <-]. destruct (products w) as [ | p ps]; cbn.
    + split; [ tauto | intros _; now left ].
    + split; [ tauto | intros [_ ?]; discriminate ].
Qed.

Lemma no_products_indicator_iff_witness :
  render ready_world = Normal (StorePage [] [Indicator (str "no-products")])
  /\ (In (Indicator (str "no-products")) [Indicator (str "no-products")]
      <-> loading ready_world = false /\ products ready_world = []).
Proof.
  split; [ reflexivity | ].
  apply (no_products_indicator_iff ready_world [] [Indicator (str "no-products")]).
  reflexivity.
Defined.

(** X22: while loading, the featured section shows only its loading
    indicator, whatever the featured list holds, whereas the shop grid
    shows its loading indicator followed by a card for every product
    already in the catalog. *)
Theorem loading_page (w : World) :
  configError w = false ->
  loading w = true ->
  exists cards,
    render w = Normal (StorePage [Indicator (str "loading-featured")]
                         (Indicator (str "loading-products") :: cards))
    /\ map element_testid cards = map (fun p => str "card-product-" ++ id p) (products w)
    /\ forallb is_card cards = true.
Proof.
  intros Herr Hload. unfold render. rewrite Herr, Hload.
  destruct (render_cards_show (str "card-product-") (products w)) as (cards & -> & Hc).
  destruct (shows_testids _ _ _ Hc) as (Hcid & Hccard & _).
  exists cards. repeat split; trivial.
Qed.

Lemma loading_page_witness :
  configError initial_world = false
  /\ loading initial_world = true
  /\ render initial_world
     = Normal (StorePage [Indicator (str "loading-featured")]
                 [Indicator (str "loading-products")]).
Proof.
  split; [ reflexivity | split; [ reflexivity | ] ].
  destruct (loading_page initial_world eq_refl eq_refl) as (cards & Hrender & Hids & _).
  destruct cards; [ exact Hrender | discriminate Hids ].
Defined.


End RenderFacts.

(** * Further properties of price formatting *)

Module PriceMore.
Import App Scenarios.
Local Open Scope Z_scope.

Lemma digit_char_is_digit (n : Z) : is_digit (digit_char (n mod 10)) = true.
Proof.
  pose proof (Z.mod_pos_bound n 10 ltac:(lia)) as Hd.
  unfold is_digit, digit_char. apply andb_true_iff. split; apply N.leb_le; lia.
Qed.

Lemma digits_go_shape (fuel : nat) (n : Z) (acc : jsstring) :
  exists ds, digits_go fuel n acc = ds ++ acc
             /\ all_digits ds
             /\ (fuel <> O -> ds <> []).
Proof.
  revert n acc. induction fuel as [ | fuel IH]; intros n acc; cbn.
  - exists []. repeat split; [ constructor | congruence ].
  - destruct (n <? 10).
    + exists [digit_char (n mod 10)]. repeat split; [ | discriminate ].
      constructor; [ apply digit_char_is_digit | constructor ].
    + destruct (IH (n / 10) (digit_char (n mod 10) :: acc)) as (ds & -> & Hds & _).
      exists (ds ++ [digit_char (n mod 10)]). repeat split.
      * now rewrite <- List.app_assoc.
      * apply Forall_app. split; [ exact Hds | ].
        constructor; [ apply digit_char_is_digit | constructor ].
      * intros _. destruct ds; discriminate.
Qed.

Lemma decimal_digits_shape (n : Z) :
  decimal_digits n <> [] /\ all_digits (decimal_digits n).
Proof.
  unfold decimal_digits.
  destruct (digits_go_shape (S (Z.to_nat (Z.log2 n))) n []) as (ds & -> & Hds & Hne).
  rewrite List.app_nil_r. split; [ now apply Hne | exact Hds ].
Qed.

Lemma zeros_digits (n : Z) : all_digits (zeros n).
Proof.
  unfold zeros. induction (Z.to_nat n); cbn; constructor; [ reflexivity | assumption ].
Qed.

Lemma zeros_length (n : Z) : length (zeros n) = Z.to_nat n.
Proof. unfold zeros. apply repeat_length. Qed.

(** With two fraction digits the fixed-point text is a non-empty whole
    part, a point and two digits. *)
Lemma fixed_digits_two (n : Z) :
  exists whole frac,
    fixed_digits n 2 = whole ++ str "." ++ frac
    /\ whole <> [] /\ length frac = 2%nat
    /\ all_digits whole /\ all_digits frac.
Proof.
  unfold fixed_digits. cbn [Z.eqb].
  destruct (decimal_digits_shape n) as (Hne & Hds).
  set (m := decimal_digits n) in *.
  set (m' := if len m <=? 2 then zeros (2 + 1 - len m) ++ m else m).
  assert (Hm' : all_digits m' /\ (3 <= length m')%nat).
  { subst m'. unfold len. destruct (Z.of_nat (length m) <=? 2) eqn:Hle.
    - apply Z.leb_le in Hle. split.
      + apply Forall_app. split; [ apply zeros_digits | exact Hds ].
      + rewrite length_app, zeros_length. lia.
    - apply Z.leb_gt in Hle. split; [ exact Hds | lia ]. }
  destruct Hm' as (Hdig & Hlen).
  eexists _, _. split; [ reflexivity | ].
  unfold len. repeat split.
  - intros Habs. apply (f_equal length) in Habs. rewrite length_take in Habs.
    cbn in Habs. lia.
  - rewrite length_drop. lia.
  - now apply Forall_take.
  - now apply Forall_drop.
Qed.

Lemma toFixed_two_shape (x : number) :
  fixed_range x = true ->
  exists sign whole frac,
    toFixed x 2 = Normal (sign ++ whole ++ str "." ++ frac)
    /\ (sign = [] \/ sign = str "-")
    /\ whole <> [] /\ length frac = 2%nat
    /\ all_digits whole /\ all_digits frac.
Proof.
  unfold toFixed, fixed_range.
  replace ((2 <? 0) || (100 <? 2)) with false by reflexivity.
  destruct x as [ | neg | neg | neg m e]; try discriminate.
  - intros _. destruct (fixed_digits_two 0) as (whole & frac & -> & H).
    exists [], whole, frac. split; [ reflexivity | ]. split; [ now left | exact H ].
  - destruct (fraction_of m e) as [num den].
    destruct (10 ^ 21 * den <=? num); [ discriminate | ]. intros _.
    destruct (fixed_digits_two (nearest_scaled num den 2)) as (whole & frac & -> & H).
    exists (if neg then str "-" else []), whole, frac.
    split; [ reflexivity | ]. split; [ destruct neg; auto | exact H ].
Qed.

(** X24: an amount that parses to zero or to a finite number below
    10^21 is shown as "$", an optional minus sign, at least one digit, a
    point and exactly two digits. *)
Theorem formatPrice_two_decimals (v : value) :
  fixed_range (parsed_amount v) = true ->
  exists sign whole frac,
    formatPrice v = Normal (str "$" ++ sign ++ whole ++ str "." ++ frac)
    /\ (sign = [] \/ sign = str "-")
    /\ whole <> [] /\ length frac = 2%nat
    /\ all_digits whole /\ all_digits frac.
Proof.
  intros Hrange. unfold formatPrice. fold (parsed_amount v).
  destruct (toFixed_two_shape _ Hrange) as (sign & whole & frac & -> & H).
  exists sign, whole, frac. split; [ reflexivity | exact H ].
Qed.

Lemma formatPrice_two_decimals_witness :
  fixed_range (parsed_amount (VString (str "-1234.5678"))) = true
  /\ exists sign whole frac,
       formatPrice (VString (str "-1234.5678"))
       = Normal (str "$" ++ sign ++ whole ++ str "." ++ frac)
       /\ (sign = [] \/ sign = str "-")
       /\ whole <> [] /\ length frac = 2%nat
       /\ all_digits whole /\ all_digits frac.
Proof.
  split; [ reflexivity | ].
  apply (formatPrice_two_decimals (VString (str "-1234.5678"))). reflexivity.
Defined.

Lemma trim_start_blank (s : jsstring) :
  forallb is_white_space s = true -> trim_start s = [].
Proof.
  induction s as [ | c s IH]; cbn; [ reflexivity | ].
  intros H. apply andb_true_iff in H as [-> Hs]. now apply IH.
Qed.

(** X25: white space in front of an amount is ignored. *)
Theorem formatPrice_leading_white_space (c : N) (s : jsstring) :
  is_white_space c = true ->
  s <> [] ->
  formatPrice (VString (c :: s)) = formatPrice (VString s).
Proof.
  intros Hc Hs. unfold formatPrice, or_else.
  destruct s as [ | c' s]; [ congruence | ].
  cbn [ToBoolean ToString]. unfold parseFloat.
  change (trim_start (c :: c' :: s))
    with (if is_white_space c then trim_start (c' :: s) else c :: c' :: s).
  now rewrite Hc.
Qed.

Lemma formatPrice_leading_white_space_witness :
  is_white_space 32 = true
  /\ formatPrice (VString (str " 19.5")) = formatPrice (VString (str "19.5")).
Proof.
  split; [ reflexivity | ].
  apply (formatPrice_leading_white_space 32%N (str "19.5")); [ reflexivity | discriminate ].
Defined.

(** X26: a non-empty amount made of white space only is shown as
    "$NaN", unlike the empty amount, which is shown as "$0.00". *)
Theorem formatPrice_blank (s : jsstring) :
  s <> [] ->
  forallb is_white_space s = true ->
  formatPrice (VString s) = Normal (str "$NaN")
  /\ formatPrice (VString []) = Normal (str "$0.00").
Proof.
  intros Hs Hblank. split; [ | reflexivity ].
  apply PriceFacts.formatPrice_not_a_number; [ exact Hs | ].
  unfold parseFloat. now rewrite (trim_start_blank s Hblank).
Qed.

Lemma formatPrice_blank_witness :
  forallb is_white_space (str "  ") = true
  /\ formatPrice (VString (str "  ")) = Normal (str "$NaN").
Proof.
  split; [ reflexivity | ].
  apply (formatPrice_blank (str "  ")); [ discriminate | reflexivity ].
Defined.

End PriceMore.

(** * Whole-dollar amounts *)

Module WholeDollars.
Import App Scenarios.
Local Open Scope Z_scope.

Lemma digit_of_char (d : Z) : 0 <= d < 10 -> digit_of (digit_char d) = d.
Proof. unfold digit_of, digit_char. lia. Qed.

Lemma digits_value_snoc (ds : list Z) (d : Z) :
  digits_value (ds ++ [d]) = 10 * digits_value ds + d.
Proof. unfold digits_value. now rewrite fold_left_app. Qed.

Lemma digits_go_S (fuel : nat) (n : Z) (acc : jsstring) :
  digits_go (S fuel) n acc
  = if n <? 10 then digit_char (n mod 10) :: acc
    else digits_go fuel (n / 10) (digit_char (n mod 10) :: acc).
Proof. reflexivity. Qed.

(** [digits_go] with enough fuel writes the decimal digits of [n]. *)
Lemma digits_go_value (fuel : nat) (n : Z) (acc : jsstring) :
  0 <= n < 10 ^ Z.of_nat (S fuel) ->
  exists ds, digits_go (S fuel) n acc = ds ++ acc
             /\ digits_value (map digit_of ds) = n.
Proof.
  revert n acc. induction fuel as [ | fuel IH]; intros n acc Hn.
  - change (10 ^ Z.of_nat 1) with 10 in Hn. cbn.
    replace (n <? 10) with true by (symmetry; apply Z.ltb_lt; lia).
    exists [digit_char (n mod 10)]. split; [ reflexivity | ].
    cbn. rewrite digit_of_char by (apply Z.mod_pos_bound; lia).
    rewrite Z.mod_small by lia. lia.
  - rewrite digits_go_S. destruct (n <? 10) eqn:Hsmall.
    + apply Z.ltb_lt in Hsmall.
      exists [digit_char (n mod 10)]. split; [ reflexivity | ].
      cbn. rewrite digit_of_char by (apply Z.mod_pos_bound; lia).
      rewrite Z.mod_small by lia. lia.
    + apply Z.ltb_ge in Hsmall.
      assert (Hq : 0 <= n / 10 < 10 ^ Z.of_nat (S fuel)).
      { split; [ apply Z.div_pos; lia | ].
        apply Z.div_lt_upper_bound; [ lia | ].
        replace (Z.of_nat (S (S fuel))) with (Z.succ (Z.of_nat (S fuel))) in Hn by lia.
        rewrite Z.pow_succ_r in Hn by lia. lia. }
      destruct (IH (n / 10) (digit_char (n mod 10) :: acc) Hq) as (ds & Hgo & Hval).
      exists (ds ++ [digit_char (n mod 10)]). split.
      * rewrite Hgo. now rewrite <- List.app_assoc.
      * rewrite map_app. cbn [map]. rewrite digits_value_snoc, Hval.
        rewrite digit_of_char by (apply Z.mod_pos_bound; lia).
        pose proof (Z.div_mod n 10 ltac:(lia)). lia.
Qed.

Lemma fuel_suffices (n : Z) : 0 <= n -> n < 10 ^ Z.of_nat (S (Z.to_nat (Z.log2 n))).
Proof.
  intros Hn. pose proof (Z.log2_nonneg n) as Hlog.
  replace (Z.of_nat (S (Z.to_nat (Z.log2 n)))) with (Z.succ (Z.log2 n)) by lia.
  destruct (Z.eq_dec n 0) as [-> | Hpos].
  - reflexivity.
  - assert (Hlt : n < 2 ^ Z.succ (Z.log2 n)) by (apply Z.log2_spec; lia).
    assert (Hle : 2 ^ Z.succ (Z.log2 n) <= 10 ^ Z.succ (Z.log2 n))
      by (apply Z.pow_le_mono_l; lia).
    lia.
Qed.

Lemma decimal_digits_value (n : Z) :
  0 <= n -> digits_value (map digit_of (decimal_digits n)) = n.
Proof.
  intros Hn. unfold decimal_digits.
  destruct (digits_go_value (Z.to_nat (Z.log2 n)) n [])
    as (ds & -> & Hval); [ split; [ lia | now apply fuel_suffices ] | ].
  now rewrite List.app_nil_r.
Qed.

(** More fuel than needed changes nothing. *)
Lemma digits_go_fuel (f1 f2 : nat) (n : Z) (acc : jsstring) :
  0 <= n < 10 ^ Z.of_nat (S f1) ->
  n < 10 ^ Z.of_nat (S f2) ->
  digits_go (S f1) n acc = digits_go (S f2) n acc.
Proof.
  revert f2 n acc. induction f1 as [ | f1 IH]; intros f2 n acc H1 H2.
  - change (10 ^ Z.of_nat 1) with 10 in H1. rewrite !digits_go_S.
    now replace (n <? 10) with true by (symmetry; apply Z.ltb_lt; lia).
  - rewrite !digits_go_S. destruct (n <? 10) eqn:Hsmall; [ reflexivity | ].
    apply Z.ltb_ge in Hsmall.
    destruct f2 as [ | f2].
    { change (10 ^ Z.of_nat 1) with 10 in H2. lia. }
    apply IH.
    + split; [ apply Z.div_pos; lia | ].
      apply Z.div_lt_upper_bound; [ lia | ].
      replace (Z.of_nat (S (S f1))) with (Z.succ (Z.of_nat (S f1))) in H1 by lia.
      rewrite Z.pow_succ_r in H1 by lia. lia.
    + apply Z.div_lt_upper_bound; [ lia | ].
      replace (Z.of_nat (S (S f2))) with (Z.succ (Z.of_nat (S f2))) in H2 by lia.
      rewrite Z.pow_succ_r in H2 by lia. lia.
Qed.

Lemma digits_go_acc (fuel : nat) (n : Z) (acc : jsstring) :
  digits_go fuel n acc = digits_go fuel n [] ++ acc.
Proof.
  revert n acc. induction fuel as [ | fuel IH]; intros n acc; [ reflexivity | ].
  rewrite !digits_go_S. destruct (n <? 10); [ reflexivity | ].
  rewrite (IH _ (_ :: acc)), (IH _ [_]). now rewrite <- List.app_assoc.
Qed.

(** Appending a zero multiplies by ten. *)
Lemma decimal_digits_times_ten (n : Z) :
  1 <= n -> decimal_digits (10 * n) = decimal_digits n ++ [48%N].
Proof.
  intros Hn. unfold decimal_digits.
  pose proof (fuel_suffices n ltac:(lia)) as Hfuel.
  pose proof (fuel_suffices (10 * n) ltac:(lia)) as Hfuel10.
  rewrite (digits_go_fuel _ (S (Z.to_nat (Z.log2 n))) (10 * n) []).
  - rewrite digits_go_S.
    replace (10 * n <? 10) with false by (symmetry; apply Z.ltb_ge; lia).
    replace (10 * n / 10) with n by (apply Z.div_unique with 0; lia).
    replace ((10 * n) mod 10) with 0 by (apply Z.mod_unique with n; lia).
    apply digits_go_acc.
  - split; [ lia | exact Hfuel10 ].
  - replace (Z.of_nat (S (S (Z.to_nat (Z.log2 n)))))
      with (Z.succ (Z.of_nat (S (Z.to_nat (Z.log2 n))))) by lia.
    rewrite Z.pow_succ_r by lia. lia.
Qed.

Lemma span_digits_all (ds : jsstring) :
  all_digits ds -> span_digits ds = (map digit_of ds, []).
Proof.
  induction 1 as [ | c ds Hc _ IH]; cbn; [ reflexivity | ].
  now rewrite Hc, IH.
Qed.

Lemma digit_bounds (c : N) : is_digit c = true -> (48 <= c <= 57)%N.
Proof.
  unfold is_digit. intros H. apply andb_true_iff in H as [H1 H2].
  apply N.leb_le in H1, H2. lia.
Qed.

Ltac not_this_char c :=
  repeat match goal with
         | |- context [N.eqb c ?k] =>
           replace (N.eqb c k) with false by (symmetry; apply N.eqb_neq; lia)
         | |- context [N.eqb ?k c] =>
           replace (N.eqb k c) with false by (symmetry; apply N.eqb_neq; lia)
         | |- context [N.leb ?k c] =>
           replace (N.leb k c) with false by (symmetry; apply N.leb_gt; lia)
         end.

Lemma digit_not_white_space (c : N) : is_digit c = true -> is_white_space c = false.
Proof.
  intros Hc. apply digit_bounds in Hc.
  unfold is_white_space, mem. cbn [existsb]. not_this_char c. reflexivity.
Qed.

(** A digit string parses to the number it denotes. *)
Lemma parseFloat_digits (ds : jsstring) :
  ds <> [] -> all_digits ds ->
  parseFloat ds = number_of_rational false (digits_value (map digit_of ds)) 1.
Proof.
  intros Hne Hds. destruct ds as [ | c ds]; [ congruence | ].
  pose proof (span_digits_all _ Hds) as Hspan.
  inversion Hds as [ | ? ? Hc Hrest]; subst.
  pose proof (digit_bounds c Hc) as Hb.
  unfold parseFloat.
  change (trim_start (c :: ds)) with (if is_white_space c then trim_start ds else c :: ds).
  rewrite (digit_not_white_space c Hc).
  unfold split_sign. not_this_char c.
  change (is_prefix (str "Infinity") (c :: ds))
    with (N.eqb 73 c && is_prefix (str "nfinity") ds).
  not_this_char c. cbn [andb].
  rewrite Hspan. cbn [map app exponent_part length].
  rewrite List.app_nil_r. unfold number_of_decimal, scale10.
  change (0 <=? (- (0 - Z.of_nat 0))) with true.
  change (1 * 10 ^ (- (0 - Z.of_nat 0))) with 1. reflexivity.
Qed.

Lemma parseFloat_decimal_digits (n : Z) :
  0 <= n -> parseFloat (decimal_digits n) = number_of_rational false n 1.
Proof.
  intros Hn. destruct (PriceMore.decimal_digits_shape n) as (Hne & Hds).
  rewrite (parseFloat_digits _ Hne Hds). now rewrite decimal_digits_value.
Qed.

(** A positive integer below 2^53 is a binary64 value: rounding it is
    exact. *)
Lemma number_of_whole (n : Z) :
  0 < n < 2 ^ 53 ->
  exists m e, number_of_rational false n 1 = Finite false m e
              /\ e <= 0 /\ Z.pos m = n * 2 ^ (- e).
Proof.
  intros Hn. unfold number_of_rational.
  replace (n <=? 0) with false by (symmetry; apply Z.leb_gt; lia).
  assert (Hlog : Z.log2 n < 53) by (apply Z.log2_lt_pow2; lia).
  assert (Hbin : binade n 1 <= 0).
  { unfold binade. change (Z.log2 1) with 0.
    destruct (scale2 n 1 (Z.log2 n - 0 - 52)) as [a b].
    destruct (a / b <? 2 ^ 52); lia. }
  set (e := Z.max (binade n 1) (-1074)).
  assert (He : -1074 <= e <= 0) by (subst e; lia).
  clearbody e.
  assert (Hscale : scale2 n 1 e = (n * 2 ^ (- e), 1)).
  { unfold scale2. destruct (0 <=? e) eqn:H0.
    - apply Z.leb_le in H0. assert (e = 0) as -> by lia. cbn. f_equal. lia.
    - reflexivity. }
  rewrite Hscale.
  assert (Hpow : 0 < 2 ^ (- e)) by (apply Z.pow_pos_nonneg; lia).
  set (a := n * 2 ^ (- e)) in *.
  assert (Ha : 0 < a) by (subst a; lia).
  assert (Hround : round_half_even a 1 = a).
  { unfold round_half_even. rewrite Z.mod_1_r, Z.div_1_r. reflexivity. }
  rewrite Hround.
  replace (a =? 0) with false by (symmetry; apply Z.eqb_neq; lia).
  destruct (a =? 2 ^ 53) eqn:Hmax.
  - apply Z.eqb_eq in Hmax.
    replace (971 <=? e) with false by (symmetry; apply Z.leb_gt; lia).
    assert (Hneg : e < 0).
    { destruct (Z.eq_dec e 0) as [-> | ]; [ | lia ].
      subst a. change (2 ^ (- 0)) with 1 in Hmax. lia. }
    eexists _, _. split; [ reflexivity | ]. split; [ lia | ].
    rewrite Z2Pos.id by reflexivity.
    assert (Hsplit : 2 ^ (- e) = 2 * 2 ^ (- (e + 1))).
    { replace (- e) with (Z.succ (- (e + 1))) by lia.
      rewrite Z.pow_succ_r by lia. reflexivity. }
    subst a. rewrite Hsplit in Hmax. change (2 ^ 53) with (2 * 2 ^ 52) in Hmax. lia.
  - replace (971 <? e) with false by (symmetry; apply Z.ltb_ge; lia).
    eexists _, _. split; [ reflexivity | ]. split; [ lia | ].
    now rewrite Z2Pos.id.
Qed.

Lemma toFixed_whole (n : Z) :
  0 < n < 2 ^ 53 ->
  toFixed (number_of_rational false n 1) 2 = Normal (fixed_digits (100 * n) 2).
Proof.
  intros Hn. destruct (number_of_whole n Hn) as (m & e & -> & He & Hm).
  unfold toFixed.
  replace ((2 <? 0) || (100 <? 2)) with false by reflexivity.
  assert (Hfrac : exists den, 0 < den /\ fraction_of m e = (n * den, den)).
  { unfold fraction_of. destruct (0 <=? e) eqn:H0.
    - apply Z.leb_le in H0. assert (e = 0) as -> by lia.
      exists 1. split; [ lia | ]. f_equal. change (2 ^ (- 0)) with 1 in Hm.
      change (2 ^ 0) with 1. lia.
    - exists (2 ^ (- e)). split; [ apply Z.pow_pos_nonneg; lia | ]. now rewrite Hm. }
  destruct Hfrac as (den & Hden & ->).
  assert (H21 : n < 10 ^ 21).
  { assert (2 ^ 53 < 10 ^ 21) by reflexivity. lia. }
  replace (10 ^ 21 * den <=? n * den) with false
    by (symmetry; apply Z.leb_gt; apply Z.mul_lt_mono_pos_r; lia).
  cbn [app]. f_equal. f_equal.
  unfold nearest_scaled. change (10 ^ 2) with 100.
  symmetry. apply Z.div_unique with den; lia.
Qed.

Lemma fixed_digits_whole (n : Z) :
  0 <= n -> fixed_digits (100 * n) 2 = decimal_digits n ++ str ".00".
Proof.
  intros Hn. destruct (Z.eq_dec n 0) as [-> | Hpos]; [ reflexivity | ].
  replace (100 * n) with (10 * (10 * n)) by lia.
  unfold fixed_digits. cbn [Z.eqb].
  rewrite !decimal_digits_times_ten by lia.
  destruct (PriceMore.decimal_digits_shape n) as (Hne & _).
  set (m := decimal_digits n) in *.
  rewrite <- List.app_assoc. cbn [app].
  assert (Hlen : len (m ++ [48%N; 48%N]) = Z.of_nat (length m) + 2).
  { unfold len. rewrite length_app. cbn. lia. }
  assert (Hm : (1 <= length m)%nat) by (destruct m; [ congruence | cbn; lia ]).
  replace (len (m ++ [48%N; 48%N]) <=? 2) with false
    by (symmetry; apply Z.leb_gt; lia).
  rewrite Hlen.
  replace (Z.to_nat (Z.of_nat (length m) + 2 - 2)) with (length m) by lia.
  now rewrite take_app_length, drop_app_length.
Qed.

(** X27: a whole amount displays exactly: for every integer n with
    0 <= n < 2^53, the amount written as the decimal numeral of n is shown
    as "$", that numeral and ".00". *)
Theorem formatPrice_whole_amount (n : Z) :
  0 <= n < 2 ^ 53 ->
  formatPrice (VString (decimal_digits n))
  = Normal (str "$" ++ decimal_digits n ++ str ".00").
Proof.
  intros Hn. destruct (Z.eq_dec n 0) as [-> | Hpos]; [ reflexivity | ].
  destruct (PriceMore.decimal_digits_shape n) as (Hne & _).
  unfold formatPrice, or_else.
  destruct (decimal_digits n) as [ | c ds] eqn:Hds; [ congruence | ].
  cbn [ToBoolean ToString]. rewrite <- Hds.
  rewrite parseFloat_decimal_digits by lia.
  rewrite toFixed_whole by lia.
  now rewrite fixed_digits_whole by lia.
Qed.

Lemma formatPrice_whole_amount_witness :
  (0 <= 1299 < 2 ^ 53)
  /\ decimal_digits 1299 = str "1299"
  /\ formatPrice (VString (str "1299")) = Normal (str "$1299.00").
Proof.
  split; [ lia | split; [ reflexivity | ] ].
  apply (formatPrice_whole_amount 1299). lia.
Defined.

End WholeDollars.

(** * Further properties of the configuration endpoint *)

Module ServerMore.
Import Server Scenarios.

Lemma serve_snoc (routes : Express) (r : Route) (env : Env) (req : Req) :
  serve (routes ++ [r]) env req
  = match serve routes env req with
    | Some res => Some res
    | None => serve [r] env req
    end.
Proof.
  induction routes as [ | r' routes IH]; [ reflexivity | ].
  cbn [app serve]. now destruct (_ && _).
Qed.

Lemma serve_registered (app : Express) (env : Env) (req : Req) :
  serve (registerRoutes app) env req
  = match serve app env req with
    | Some res => Some res
    | None => if is_get_shopify_config req then Some (config_document env) else None
    end.
Proof.
  unfold registerRoutes, app_get. rewrite serve_snoc.
  destruct (serve app env req); [ reflexivity | ].
  cbn [serve route_method route_path route_handler]. unfold is_get_shopify_config.
  destruct (_ && _); [ | reflexivity ].
  unfold shopify_config, res_json, config_document. cbn [statusCode fresh_res].
  now rewrite !ServerFacts.env_or_empty.
Qed.


(** A POST to the same path, and a GET of another path, are not served. *)
Example other_requests_not_served :
  serve (registerRoutes []) (∅ : Env)
    {| method := str "POST"; path := str "/api/config/shopify" |} = None
  /\ serve (registerRoutes []) (∅ : Env)
       {| method := str "GET"; path := str "/api/config" |} = None.
Proof. split; reflexivity. Qed.

Lemma config_document_agree (env env' : Env) :
  env !! STORE_DOMAIN = env' !! STORE_DOMAIN ->
  env !! ACCESS_TOKEN = env' !! ACCESS_TOKEN ->
  config_document env = config_document env'.
Proof. intros H1 H2. unfold config_document, jsstring in *. now rewrite H1, H2. Qed.

(** X29: the response exposes nothing but the two variables: setting,
    changing or removing any other environment variable leaves the
    response to every request as it was. *)
Theorem response_ignores_other_variables (env : Env) (name value : jsstring) (req : Req) :
  name <> STORE_DOMAIN ->
  name <> ACCESS_TOKEN ->
  serve (registerRoutes []) (<[name := value]> env) req = serve (registerRoutes []) env req
  /\ serve (registerRoutes []) (delete name env) req = serve (registerRoutes []) env req.
Proof.
  intros Hd Ht. rewrite !serve_registered. cbn [serve].
  destruct (is_get_shopify_config req); [ | split; reflexivity ].
  split; f_equal; apply config_document_agree.
  - now rewrite lookup_insert_ne.
  - now rewrite lookup_insert_ne.
  - now rewrite lookup_delete_ne.
  - now rewrite lookup_delete_ne.
Qed.

Lemma response_ignores_other_variables_witness :
  str "DATABASE_URL" <> STORE_DOMAIN
  /\ serve (registerRoutes []) (<[str "DATABASE_URL" := str "postgres://secret"]> ∅)
       get_shopify_config
     = serve (registerRoutes []) ∅ get_shopify_config.
Proof.
  split; [ discriminate | ].
  apply (response_ignores_other_variables ∅ (str "DATABASE_URL") (str "postgres://secret")
           get_shopify_config); discriminate.
Defined.

Lemma served_config_json (env : Env) :
  App.json (client_response (config_document env))
  = App.Ok {| App.domain := VString (default [] (env !! STORE_DOMAIN));
              App.storefrontAccessToken := VString (default [] (env !! ACCESS_TOKEN)) |}.
Proof. reflexivity. Qed.

(** X30: server and client together. When the client's configuration
    fetch is answered by this endpoint, the bootstrap ends in ConfigError
    without building a client if either variable is unset or empty, and
    otherwise builds the client from the domain variable, with its first
    "https://" removed, and the token variable. *)
Theorem served_config_decides_bootstrap (P : App.Platform) (env : Env) (res : Res) :
  serve (registerRoutes []) env get_shopify_config = Some res ->
  App.fetch P App.config_url = App.Ok (client_response res) ->
  let w' := snd (App.initializeAndLoad P App.initial_world) in
  let evs := events_of (App.initializeAndLoad P) App.initial_world in
  (default [] (env !! STORE_DOMAIN) = [] \/ default [] (env !! ACCESS_TOKEN) = [] ->
   App.configError w' = true
   /\ evs = [App.Fetch App.config_url; App.Await; App.ReadJson; App.Await])
  /\ (forall d t,
        env !! STORE_DOMAIN = Some d -> d <> [] ->
        env !! ACCESS_TOKEN = Some t -> t <> [] ->
        exists rest,
          evs = [App.Fetch App.config_url; App.Await; App.ReadJson; App.Await;
                 App.BuildClient (built_config d (VString t))] ++ rest).
Proof.
  intros Hserve Hfetch w' evs. subst w' evs.
  rewrite serve_registered in Hserve. cbn in Hserve. injection Hserve as <-.
  pose proof (served_config_json env) as Hjson.
  split.
  - intros Hempty.
    assert (Hfalsy :
              ToBoolean (VString (default [] (env !! STORE_DOMAIN))) = false
              \/ ToBoolean (VString (default [] (env !! ACCESS_TOKEN))) = false).
    { destruct Hempty as [-> | ->]; [ now left | now right ]. }
    pose proof (BootstrapFacts.bootstrap_config_falsy P App.initial_world _ _
                  Hfetch Hjson Hfalsy) as Hrun.
    unfold events_of. rewrite Hrun. split; reflexivity.
  - intros d t Hd Hdne Ht Htne.
    rewrite Hd, Ht in Hjson. cbn [default] in Hjson.
    apply (BootstrapMore.bootstrap_builds_client P App.initial_world _ _ d
             Hfetch Hjson eq_refl Hdne).
    destruct t; [ congruence | reflexivity ].
Qed.

Lemma served_config_decides_bootstrap_witness :
  default [] ((∅ : Env) !! STORE_DOMAIN) = []
  /\ App.configError (snd (App.initializeAndLoad (served_by ∅) App.initial_world)) = true.
Proof.
  split; [ reflexivity | ].
  destruct (served_config_decides_bootstrap (served_by ∅) ∅ (config_document ∅))
    as [Hempty _].
  - now rewrite serve_registered.
  - unfold served_by. now rewrite serve_registered.
  - apply Hempty. now left.
Defined.

End ServerMore.
